(** * Contract-Management-System: request gate and client auth-state cache

    A shallow embedding of
      - the Next.js [middleware] (request gate),
      - the [AuthService] singleton (client auth-state cache), and
      - the two session routes (check-session and test-session),
    together with the properties stated about them.

    JavaScript strings are modelled as [string]; the request cookie jar and
    the response cookie jar are finite maps keyed by cookie name; the
    listener [Set] is an insertion-ordered duplicate-free list. *)

From Stdlib Require Import ZArith Ascii String.
From stdpp Require Import base strings gmap list.

Local Open Scope string_scope.
Local Open Scope list_scope.

(** ** JavaScript string primitives used by the sources *)

Module Js.

(** [s.startsWith(p)] *)
Definition startsWith (p s : string) : bool := String.prefix p s.

(** [s.includes(needle)] *)
Fixpoint includes (needle s : string) : bool :=
  String.prefix needle s
  || match s with
     | EmptyString => false
     | String _ s' => includes needle s'
     end.

(** [s.endsWith(suf)] *)
Definition endsWith (suf s : string) : bool :=
  String.prefix (String.rev suf) (String.rev s).

(** [s.split(sep)] for a one-character separator; the result is never
    empty ([''.split('/')] is [['']]). *)
Fixpoint split (sep : ascii) (s : string) : list string :=
  match s with
  | EmptyString => [EmptyString]
  | String c s' =>
      if Ascii.eqb c sep then EmptyString :: split sep s'
      else match split sep s' with
           | h :: t => String c h :: t
           | [] => [String c EmptyString]
           end
  end.

(** Truthiness of a string value. *)
Definition truthy (s : string) : bool := negb (String.eqb s "").

(** How often the character [c] occurs in [s]. *)
Fixpoint count (c : ascii) (s : string) : nat :=
  match s with
  | EmptyString => 0
  | String a s' => (if Ascii.eqb a c then 1 else 0) + count c s'
  end.

End Js.

(** ** Data shared by both components *)

Record User := mkUser { user_id : string; user_email : string }.

Record Session := mkSession {
  session_user : User;
  access_token : string;
  refresh_token : string;
  expires_in : Z;
  token_type : string
}.

(** ** The request gate ([middleware]) *)

Module Gate.

(** [req.nextUrl]: the parts the gate reads or rewrites. *)
Record Url := mkUrl {
  pathname : string;
  searchParams : list (string * string)
}.

(** [url.searchParams.set(name, value)]: overwrite the first entry of that
    name and drop the others, or append when there is none. *)
Fixpoint searchParams_set (name value : string) (l : list (string * string))
  : list (string * string) :=
  match l with
  | [] => [(name, value)]
  | (k, v) :: t =>
      if String.eqb k name
      then (name, value) :: filter (λ p, negb (String.eqb (fst p) name)) t
      else (k, v) :: searchParams_set name value t
  end.

(** [url.searchParams.get(name)] *)
Fixpoint searchParams_get (name : string) (l : list (string * string))
  : option string :=
  match l with
  | [] => None
  | (k, v) :: t => if String.eqb k name then Some v else searchParams_get name t
  end.

(** [CookieOptions] as passed by the provider client to the adapter. *)
Record CookieOptions := mkOptions {
  opt_path : option string;
  opt_expires : option Z;
  opt_maxAge : option Z;
  opt_domain : option string;
  opt_secure : option bool;
  opt_httpOnly : option bool;
  opt_sameSite : option string
}.

(** An entry of [res.cookies], keyed by its name in the jar. Dates are
    milliseconds since the epoch, so [new Date(0)] is [0]. *)
Record ResponseCookie := mkCookie {
  c_value : string;
  c_expires : option Z;
  c_path : option string;
  c_maxAge : option Z;
  c_domain : option string;
  c_secure : option bool;
  c_httpOnly : option bool;
  c_sameSite : option string
}.

Inductive Kind :=
| Next
| Redirect (url : Url) (status : Z).

Record Response := mkResponse {
  kind : Kind;
  res_cookies : gmap string ResponseCookie
}.

(** [NextResponse.next()] *)
Definition NextResponse_next : Response := mkResponse Next ∅.

(** [NextResponse.redirect(url)] and [NextResponse.redirect(url, status)]:
    a fresh response, the default status being 307. *)
Definition NextResponse_redirect (url : Url) (status : option Z) : Response :=
  mkResponse (Redirect url (default 307%Z status)) ∅.

(** [res.cookies.set({...})] *)
Definition cookies_set (name : string) (c : ResponseCookie) (res : Response)
  : Response :=
  mkResponse (kind res) (<[name := c]> (res_cookies res)).

Record Request := mkRequest {
  nextUrl : Url;
  req_cookies : gmap string string;
  referer : option string
}.

(** What the provider client does through the [cookies] adapter handed to
    [createServerClient] while the lookup runs. *)
Inductive AdapterCall :=
| AdapterSet (name value : string) (options : CookieOptions)
| AdapterRemove (name : string) (options : CookieOptions).

(** [cookies.set]: [{ name, value, ...options }] *)
Definition adapter_set (name value : string) (o : CookieOptions)
  : ResponseCookie :=
  mkCookie value (opt_expires o) (opt_path o) (opt_maxAge o)
           (opt_domain o) (opt_secure o) (opt_httpOnly o) (opt_sameSite o).

(** [cookies.remove]: [{ name, value: '', expires: new Date(0), ...options }];
    an [expires] among the options overrides the epoch. *)
Definition adapter_remove (o : CookieOptions) : ResponseCookie :=
  mkCookie "" (Some (default 0%Z (opt_expires o))) (opt_path o) (opt_maxAge o)
           (opt_domain o) (opt_secure o) (opt_httpOnly o) (opt_sameSite o).

Definition adapter_apply (res : Response) (call : AdapterCall) : Response :=
  match call with
  | AdapterSet name value o => cookies_set name (adapter_set name value o) res
  | AdapterRemove name o => cookies_set name (adapter_remove o) res
  end.

(** How [Promise.race([getSession(), timeout 5000ms])] settles. *)
Inductive Outcome :=
| Timeout                      (* the 5000ms timer rejects first *)
| Rejected                     (* the lookup itself throws *)
| Resolved (session : option Session) (sessionError : option string).

Record Lookup := mkLookup {
  lookup_writes : list AdapterCall;
  lookup_outcome : Outcome
}.

(** The guard at the top of [middleware]. *)
Definition excluded (pathname : string) : bool :=
  Js.startsWith "/_next" pathname
  || Js.startsWith "/api" pathname
  || Js.includes "." pathname
  || Js.startsWith "/favicon.ico" pathname.

(** [referer && pathname.includes('/auth/login') && referer.includes('/auth/login')] *)
Definition redirectLoop (req : Request) : bool :=
  match referer req with
  | Some r =>
      Js.truthy r
      && Js.includes "/auth/login" (pathname (nextUrl req))
      && Js.includes "/auth/login" r
  | None => false
  end.

Definition validLocales : list string := ["en"; "ar"].

Definition pathnameIsMissingLocale (pathname : string) : bool :=
  forallb
    (λ locale, negb (Js.startsWith ("/" +:+ locale +:+ "/") pathname)
               && negb (String.eqb pathname ("/" +:+ locale)))
    ["en"; "ar"].

(** [validLocales.includes(pathLocale) ? pathLocale : 'en'] with
    [pathLocale = pathname.split('/')[1]]. *)
Definition currentLocale (pathname : string) : string :=
  match Js.split "/"%char pathname !! 1%nat with
  | Some pathLocale =>
      if existsb (String.eqb pathLocale) validLocales then pathLocale else "en"
  | None => "en"
  end.

Definition publicRoutes (currentLocale : string) : list string :=
  [ "/" +:+ currentLocale +:+ "/auth/login";
    "/" +:+ currentLocale +:+ "/auth/signup";
    "/" +:+ currentLocale +:+ "/auth/forgot-password";
    "/" +:+ currentLocale +:+ "/auth/reset-password";
    "/" +:+ currentLocale +:+ "/auth/callback";
    "/" +:+ currentLocale +:+ "/auth/bypass";
    "/" +:+ currentLocale +:+ "/demo";
    "/" +:+ currentLocale +:+ "/onboarding";
    "/" +:+ currentLocale +:+ "/test-auth";
    "/" +:+ currentLocale +:+ "/test-auth-system";
    "/" +:+ currentLocale +:+ "/test-user-signup";
    "/" +:+ currentLocale +:+ "/debug-auth";
    "/" +:+ currentLocale +:+ "/debug-promoter";
    "/" +:+ currentLocale +:+ "/dashboard/debug";
    "/" +:+ currentLocale +:+ "/test-dashboard";
    "/" +:+ currentLocale +:+ "/debug-redirect";
    "/" +:+ currentLocale +:+ "/test-cookie-fix";
    "/" +:+ currentLocale +:+ "/debug-login-flow";
    "/" +:+ currentLocale +:+ "/test-client-session";
    "/test-login" ].

(** [publicRoutes.some(route => pathname.startsWith(route))] *)
Definition isPublicRoute (currentLocale pathname : string) : bool :=
  existsb (λ route, Js.startsWith route pathname) (publicRoutes currentLocale).

(** [isTruncated(cookie)], on the value of [req.cookies.get(name)]. *)
Definition isTruncated (cookie : option string) : bool :=
  match cookie with
  | None => false
  | Some value =>
      if negb (Js.truthy value) then false
      else if Js.endsWith "..." value then true
      else if (String.length value <? 10)%nat then true
      else if negb (length (Js.split "."%char value) =? 3)%nat then true
      else false
  end.

(** The cookie written for a cleared token:
    [{ value: '', expires: new Date(0), path: '/' }]. *)
Definition clearedCookie : ResponseCookie :=
  mkCookie "" (Some 0%Z) (Some "/") None None None None None.

Definition clearAuthCookies (res : Response) : Response :=
  cookies_set "sb-auth-token.1" clearedCookie
    (cookies_set "sb-auth-token.0" clearedCookie res).

(** The redirect to the login page built at two places of the gate. *)
Definition loginRedirect (req : Request) (currentLocale : string) : Response :=
  NextResponse_redirect
    (mkUrl ("/" +:+ currentLocale +:+ "/auth/login")
           (searchParams_set "redirect" (pathname (nextUrl req))
                             (searchParams (nextUrl req))))
    None.

(** The block "Check for invalid cookies and clear them if needed": the
    response object after the block, and the early return if there is one. *)
Definition cookieCheck (req : Request) (session : option Session)
    (isPublicRoute : bool) (currentLocale : string) (res : Response)
  : Response * option Response :=
  let authToken0 := req_cookies req !! "sb-auth-token.0" in
  let authToken1 := req_cookies req !! "sb-auth-token.1" in
  if isTruncated authToken0 || isTruncated authToken1 then
    match session with
    | None =>
        let res' := clearAuthCookies res in
        if negb isPublicRoute
        then (res', Some (loginRedirect req currentLocale))
        else (res', None)
    | Some _ => (res, None)
    end
  else (res, None).

(** The response object [res] once the provider client has run. *)
Definition afterLookup (lk : Lookup) : Response :=
  foldl adapter_apply NextResponse_next (lookup_writes lk).

Definition middleware (req : Request) (lk : Lookup) : Response :=
  let pathname := pathname (nextUrl req) in
  if excluded pathname then NextResponse_next
  else if redirectLoop req then NextResponse_next
  else
    let res := afterLookup lk in
    match lookup_outcome lk with
    | Timeout | Rejected => res                  (* catch (error) *)
    | Resolved _ (Some _) => res                 (* if (sessionError) *)
    | Resolved session None =>
        if pathnameIsMissingLocale pathname then
          NextResponse_redirect
            (mkUrl ("/" +:+ "en" +:+ pathname) (searchParams (nextUrl req))) None
        else
          let currentLocale := currentLocale pathname in
          let isPublicRoute := isPublicRoute currentLocale pathname in
          if negb (bool_decide (is_Some session)) && negb isPublicRoute then
            if Js.includes "/auth/login" pathname then res
            else loginRedirect req currentLocale
          else if bool_decide (is_Some session)
                  && Js.startsWith ("/" +:+ currentLocale +:+ "/auth/login") pathname
          then
            NextResponse_redirect
              (mkUrl ("/" +:+ currentLocale +:+ "/dashboard")
                     (searchParams (nextUrl req)))
              (Some 302%Z)
          else
            match cookieCheck req session isPublicRoute currentLocale res with
            | (_, Some early) => early
            | (res, None) =>
                if String.eqb pathname "/" then
                  NextResponse_redirect
                    (mkUrl (if bool_decide (is_Some session)
                            then "/" +:+ currentLocale +:+ "/dashboard"
                            else "/" +:+ currentLocale +:+ "/auth/login")
                           (searchParams (nextUrl req)))
                    None
                else res
            end
    end.

(** The name an adapter call writes under, and the cookie it writes. *)
Definition call_name (call : AdapterCall) : string :=
  match call with
  | AdapterSet name _ _ => name
  | AdapterRemove name _ => name
  end.

Definition call_cookie (call : AdapterCall) : ResponseCookie :=
  match call with
  | AdapterSet name value o => adapter_set name value o
  | AdapterRemove _ o => adapter_remove o
  end.

(** Vocabulary of the statements below. A path carries a locale when the
    test of [pathnameIsMissingLocale] succeeds for it. *)
Definition carriesLocale (locale pathname : string) : Prop :=
  Js.startsWith ("/" +:+ locale +:+ "/") pathname = true
  ∨ pathname = "/" +:+ locale.

(** [req.cookies.get(name)] is [undefined], or its value is [''] *)
Definition missingOrEmpty (cookie : option string) : Prop :=
  cookie = None ∨ cookie = Some "".

End Gate.

(** ** The client auth-state cache ([AuthService]) *)

Module Auth.

(** A row of the [profiles] table, as far as the service looks into it. *)
Record Profile := mkProfile {
  profile_id : string;
  permissions : option (list string)
}.

Record AuthState := mkAuthState {
  user : option User;
  session : option Session;
  loading : bool;
  mounted : bool;
  profile : option Profile;
  roles : list string;
  profileNotFound : bool
}.

(** [Partial<AuthState>]: a field is either absent or carries its new
    value (which may be [null]). *)
Record Updates := mkUpdates {
  up_user : option (option User);
  up_session : option (option Session);
  up_loading : option bool;
  up_mounted : option bool;
  up_profile : option (option Profile);
  up_roles : option (list string);
  up_profileNotFound : option bool
}.

(** [{ ...authState, ...updates }] *)
Definition spread (s : AuthState) (u : Updates) : AuthState :=
  {| user := default (user s) (up_user u);
     session := default (session s) (up_session u);
     loading := default (loading s) (up_loading u);
     mounted := default (mounted s) (up_mounted u);
     profile := default (profile s) (up_profile u);
     roles := default (roles s) (up_roles u);
     profileNotFound := default (profileNotFound s) (up_profileNotFound u) |}.

(** A callback is known by its identity. *)
Definition Listener := nat.

(** The instance: its fields, and the trace of callback invocations
    (which listener was called with which state, oldest first). *)
Record Service := mkService {
  supabaseClient : bool;
  authState : AuthState;
  listeners : list Listener;
  delivered : list (Listener * AuthState)
}.

Definition initialState : AuthState :=
  {| user := None; session := None; loading := true; mounted := false;
     profile := None; roles := []; profileNotFound := false |}.

(** [new AuthService()] *)
Definition fresh : Service :=
  {| supabaseClient := false; authState := initialState;
     listeners := []; delivered := [] |}.

(** [Set.prototype.add] and [Set.prototype.delete] *)
Definition set_add (l : Listener) (ls : list Listener) : list Listener :=
  if decide (l ∈ ls) then ls else ls ++ [l].

Definition set_delete (l : Listener) (ls : list Listener) : list Listener :=
  filter (λ l', l' ≠ l) ls.

(** [subscribe(listener)]: the instance afterwards and the returned
    unsubscribe closure. *)
Definition subscribe (listener : Listener) (svc : Service)
  : Service * (Service → Service) :=
  let ls := set_add listener (listeners svc) in
  ({| supabaseClient := supabaseClient svc;
      authState := authState svc;
      listeners := ls;
      delivered := delivered svc ++ [(listener, authState svc)] |},
   λ svc', {| supabaseClient := supabaseClient svc';
              authState := authState svc';
              listeners := set_delete listener (listeners svc');
              delivered := delivered svc' |}).

Definition notifyListeners (svc : Service) : Service :=
  {| supabaseClient := supabaseClient svc;
     authState := authState svc;
     listeners := listeners svc;
     delivered :=
       delivered svc ++ ((λ l, (l, authState svc)) <$> listeners svc) |}.

Definition updateState (updates : Updates) (svc : Service) : Service :=
  notifyListeners
    {| supabaseClient := supabaseClient svc;
       authState := spread (authState svc) updates;
       listeners := listeners svc;
       delivered := delivered svc |}.

(** [ensureClient()]: whether a client is returned, and the instance. *)
Definition ensureClient (window : bool) (svc : Service) : bool * Service :=
  if negb (supabaseClient svc) && window
  then (true, {| supabaseClient := true; authState := authState svc;
                 listeners := listeners svc; delivered := delivered svc |})
  else (supabaseClient svc, svc).

(** The update objects written out in the source. *)
Definition noUpdates : Updates := mkUpdates None None None None None None None.

Definition clearSession : Updates :=
  mkUpdates (Some None) (Some None) None None (Some None) (Some []) None.

Definition clearProfile : Updates :=
  mkUpdates None None None None (Some None) (Some []) None.

Definition setSession (s : option Session) (u : option User) : Updates :=
  mkUpdates (Some u) (Some s) None None None None None.

(** What the outside world answers during one [initializeAuth()]. *)
Inductive GetSessionResult :=
| GetSessionThrows
| GetSessionData (currentSession : option Session).

Inductive RefreshResult :=
| RefreshThrows
| RefreshData (refreshedSession : option Session) (refreshError : option string).

Record CheckData := mkCheckData {
  check_success : bool;
  check_hasSession : bool;
  check_user : option User
}.

Inductive CheckResult :=
| CheckThrows                       (* fetch or response.json() rejects *)
| CheckJson (data : CheckData).

Record InitEnv := mkInitEnv {
  env_window : bool;
  env_getSession : GetSessionResult;
  env_refreshSession : RefreshResult;
  env_checkSession : CheckResult
}.

Definition mockSession (u : User) : Session :=
  mkSession u "manual-check" "manual-check" 3600 "bearer".

(** The branch "If no session found, try to refresh the session". *)
Definition refreshFallback (env : InitEnv) (svc : Service) : Service :=
  match env_refreshSession env with
  | RefreshThrows => updateState clearSession svc
  | RefreshData _ (Some _) =>
      match env_checkSession env with
      | CheckThrows => updateState clearSession svc
      | CheckJson data =>
          match check_user data with
          | Some u =>
              if check_success data && check_hasSession data
              then updateState (setSession (Some (mockSession u)) (Some u)) svc
              else updateState clearSession svc
          | None => updateState clearSession svc
          end
      end
  | RefreshData (Some refreshedSession) None =>
      updateState (setSession (Some refreshedSession)
                              (Some (session_user refreshedSession))) svc
  | RefreshData None None => updateState clearSession svc
  end.

(** [initializeAuth()] up to the point where its promise settles: the
    instance, and the user id whose profile and roles are loaded in the
    background, if that load was started. *)
Definition initializeAuth (env : InitEnv) (svc : Service)
  : Service * option string :=
  let '(client, svc) := ensureClient (env_window env) svc in
  if negb client then
    (updateState (mkUpdates None None (Some false) (Some true) None None None) svc,
     None)
  else
    match env_getSession env with
    | GetSessionThrows =>
        (updateState
           (mkUpdates None None (Some false) None (Some None) (Some []) None) svc,
         None)
    | GetSessionData currentSession =>
        let svc :=
          updateState
            (mkUpdates (Some (session_user <$> currentSession))
                       (Some currentSession) (Some false) (Some true)
                       None None None) svc in
        let svc :=
          match currentSession with
          | None => refreshFallback env svc
          | Some _ => svc
          end in
        match user_id ∘ session_user <$> currentSession with
        | Some userId =>
            if Js.truthy userId then (svc, Some userId)
            else (updateState clearProfile svc, None)
        | None => (updateState clearProfile svc, None)
        end
    end.

(** The background load started by [initializeAuth()]: what
    [loadUserProfile] and [loadUserRoles] resolve to, and the update made
    when both have resolved. *)
Inductive QueryResult (A : Type) :=
| QueryThrows
| QueryData (data : A) (error : option string).
Arguments QueryThrows {A}.
Arguments QueryData {A}.

Definition loadUserProfile (q : QueryResult (option Profile)) (svc : Service)
  : option Profile :=
  if negb (supabaseClient svc) then None
  else match q with
       | QueryThrows => None
       | QueryData _ (Some _) => None
       | QueryData p None => p
       end.

Definition loadUserRoles (q : QueryResult (list string)) (svc : Service)
  : list string :=
  if negb (supabaseClient svc) then []
  else match q with
       | QueryThrows => []
       | QueryData _ (Some _) => []
       | QueryData rs None => rs
       end.

Definition profileLoaded (qp : QueryResult (option Profile))
    (qr : QueryResult (list string)) (svc : Service) : Service :=
  let userProfile := loadUserProfile qp svc in
  let userRoles := loadUserRoles qr svc in
  updateState
    (mkUpdates None None None None (Some userProfile) (Some userRoles)
               (Some (negb (bool_decide (is_Some userProfile))))) svc.

(** [{ success, error? }] *)
Record Result := mkResult { success : bool; error : option string }.

(** [signIn(email, password)] *)
Inductive SignInResult :=
| SignInThrows
| SignInData (data_user : option User) (data_session : option Session)
             (signInError : option string).

Definition signIn (window : bool) (r : SignInResult) (svc : Service)
  : Service * Result :=
  let '(client, svc) := ensureClient window svc in
  if negb client then (svc, mkResult false (Some "No Supabase client available"))
  else
    match r with
    | SignInThrows => (svc, mkResult false (Some "Internal error during sign in"))
    | SignInData _ _ (Some message) => (svc, mkResult false (Some message))
    | SignInData (Some u) s None =>
        (updateState (setSession s (Some u)) svc, mkResult true None)
    | SignInData None _ None =>
        (svc, mkResult false (Some "No user returned from sign in"))
    end.

(** [signOut()]: what [POST /api/auth/logout] answers. *)
Inductive LogoutBody :=
| BodyThrows                        (* response.json() rejects *)
| BodyNull                          (* the JSON value null *)
| BodyObject (data_success : bool) (data_error : option string).

Inductive LogoutResponse :=
| FetchThrows
| FetchResponse (ok : bool) (body : LogoutBody).

(** [data.error || 'Failed to logout'] *)
Definition logoutError (data_error : option string) : string :=
  match data_error with
  | Some e => if Js.truthy e then e else "Failed to logout"
  | None => "Failed to logout"
  end.

Definition signOut (r : LogoutResponse) (svc : Service) : Service * Result :=
  match r with
  | FetchThrows | FetchResponse _ BodyThrows | FetchResponse _ BodyNull =>
      (svc, mkResult false (Some "Internal error during sign out"))
  | FetchResponse ok (BodyObject data_success data_error) =>
      if negb ok || negb data_success
      then (svc, mkResult false (Some (logoutError data_error)))
      else (updateState clearSession svc, mkResult true None)
  end.

(** [signUp(email, password)]: the provider answers in the shape of a
    sign-in, [{ data: { user, session }, error }]. *)
Definition signUp (window : bool) (r : SignInResult) (svc : Service)
  : Service * Result :=
  let '(client, svc) := ensureClient window svc in
  if negb client then (svc, mkResult false (Some "No Supabase client available"))
  else
    match r with
    | SignInThrows => (svc, mkResult false (Some "Internal error during sign up"))
    | SignInData _ _ (Some message) => (svc, mkResult false (Some message))
    | SignInData (Some u) s None =>
        (updateState (setSession s (Some u)) svc, mkResult true None)
    | SignInData None _ None =>
        (svc, mkResult false (Some "No user returned from sign up"))
    end.

(** A provider call that answers [{ error }] only. *)
Inductive CallResult :=
| CallThrows
| CallData (callError : option string).

(** The common body of [resetPassword], [updatePassword], [updateProfile]
    and [signInWithProvider]. Two of them read [window.location.origin]
    while building the arguments of the call, which throws when there is no
    [window]. *)
Definition providerCall (internal : string) (readsWindow : bool)
    (window : bool) (r : CallResult) (svc : Service) : Service * Result :=
  let '(client, svc) := ensureClient window svc in
  if negb client then (svc, mkResult false (Some "No Supabase client available"))
  else if readsWindow && negb window then (svc, mkResult false (Some internal))
  else
    match r with
    | CallThrows => (svc, mkResult false (Some internal))
    | CallData (Some message) => (svc, mkResult false (Some message))
    | CallData None => (svc, mkResult true None)
    end.

Definition resetPassword : bool → CallResult → Service → Service * Result :=
  providerCall "Internal error during password reset" true.

Definition updatePassword : bool → CallResult → Service → Service * Result :=
  providerCall "Internal error during password update" false.

Definition updateProfile : bool → CallResult → Service → Service * Result :=
  providerCall "Internal error during profile update" false.

Definition signInWithProvider : bool → CallResult → Service → Service * Result :=
  providerCall "Internal error during OAuth sign in" true.

(** [refreshSession()] *)
Definition refreshSession (window : bool) (r : RefreshResult) (svc : Service)
  : Service :=
  let '(client, svc) := ensureClient window svc in
  if negb client then svc
  else
    match r with
    | RefreshThrows => svc
    | RefreshData _ (Some _) => svc
    | RefreshData (Some newSession) None =>
        updateState (setSession (Some newSession)
                                (Some (session_user newSession))) svc
    | RefreshData None None => svc
    end.

(** [forceRefreshRole()]: the first of the two loads creates the client if
    it can. *)
Definition forceRefreshRole (window : bool) (qp : QueryResult (option Profile))
    (qr : QueryResult (list string)) (svc : Service) : Service :=
  match user (authState svc) with
  | None => svc
  | Some _ =>
      let '(_, svc) := ensureClient window svc in
      let userProfile := loadUserProfile qp svc in
      let userRoles := loadUserRoles qr svc in
      updateState
        (mkUpdates None None None None (Some userProfile) (Some userRoles) None)
        svc
  end.

(** [hasPermission(permission)] *)
Definition hasPermission (permission : string) (svc : Service) : bool :=
  match profile (authState svc) with
  | Some p =>
      match permissions p with
      | Some ps => bool_decide (permission ∈ ps)
      | None => false
      end
  | None => false
  end.

(** [getAuthState()] *)
Definition getAuthState (svc : Service) : AuthState := authState svc.

(** [hasRole(role)] *)
Definition hasRole (role : string) (svc : Service) : bool :=
  bool_decide (role ∈ roles (authState svc)).

(** [hasAnyRole(roles)] *)
Definition hasAnyRole (rs : list string) (svc : Service) : bool :=
  existsb (λ role, bool_decide (role ∈ roles (authState svc))) rs.

(** The calls a user of the instance can make, with what the outside world
    answers to each, and the instance after a call. *)
Inductive Op :=
| OpSubscribe (listener : Listener)
| OpUnsubscribe (listener : Listener)
| OpInitializeAuth (env : InitEnv)
| OpProfileLoaded (qp : QueryResult (option Profile)) (qr : QueryResult (list string))
| OpSignIn (window : bool) (r : SignInResult)
| OpSignUp (window : bool) (r : SignInResult)
| OpSignOut (r : LogoutResponse)
| OpResetPassword (window : bool) (r : CallResult)
| OpUpdatePassword (window : bool) (r : CallResult)
| OpUpdateProfile (window : bool) (r : CallResult)
| OpSignInWithProvider (window : bool) (r : CallResult)
| OpRefreshSession (window : bool) (r : RefreshResult)
| OpForceRefreshRole (window : bool) (qp : QueryResult (option Profile))
                     (qr : QueryResult (list string)).

Definition exec (svc : Service) (op : Op) : Service :=
  match op with
  | OpSubscribe l => (subscribe l svc).1
  | OpUnsubscribe l => (subscribe l svc).2 svc
  | OpInitializeAuth env => (initializeAuth env svc).1
  | OpProfileLoaded qp qr => profileLoaded qp qr svc
  | OpSignIn w r => (signIn w r svc).1
  | OpSignUp w r => (signUp w r svc).1
  | OpSignOut r => (signOut r svc).1
  | OpResetPassword w r => (resetPassword w r svc).1
  | OpUpdatePassword w r => (updatePassword w r svc).1
  | OpUpdateProfile w r => (updateProfile w r svc).1
  | OpSignInWithProvider w r => (signInWithProvider w r svc).1
  | OpRefreshSession w r => refreshSession w r svc
  | OpForceRefreshRole w qp qr => forceRefreshRole w qp qr svc
  end.

Definition run (ops : list Op) (svc : Service) : Service := foldl exec svc ops.

(** One instance evolving into another by state updates and by the lazy
    creation of the client, the only two ways the methods other than
    [subscribe] change it. *)
Inductive evolves : Service → Service → Prop :=
| evolves_refl svc : evolves svc svc
| evolves_update svc svc' u :
    evolves svc svc' → evolves svc (updateState u svc')
| evolves_client svc svc' window :
    evolves svc svc' → evolves svc (ensureClient window svc').2.

(** Vocabulary of the statements below. *)

(** The state a listener was last called with. *)
Definition lastDelivered (l : Listener) (svc : Service) : option AuthState :=
  snd <$> last (filter (λ d, fst d = l) (delivered svc)).

(** Whether the refresh, or the check-session fallback behind it, yields a
    session. *)
Definition refreshFindsSession (env : InitEnv) : bool :=
  match env_refreshSession env with
  | RefreshThrows => false
  | RefreshData _ (Some _) =>
      match env_checkSession env with
      | CheckThrows => false
      | CheckJson data =>
          check_success data && check_hasSession data
          && bool_decide (is_Some (check_user data))
      end
  | RefreshData refreshedSession None => bool_decide (is_Some refreshedSession)
  end.

(** [session:null, user:null, profile:null, roles:[]] *)
Definition cleared (s : AuthState) : Prop :=
  session s = None ∧ user s = None ∧ profile s = None ∧ roles s = [].

(** Every registered listener has last been called with the current state,
    and no listener is registered twice. *)
Definition upToDate (svc : Service) : Prop :=
  NoDup (listeners svc)
  ∧ ∀ l, l ∈ listeners svc → lastDelivered l svc = Some (authState svc).

End Auth.

(** ** The session routes ([GET /api/auth/check-session], [GET /api/test-session]) *)

Module Routes.

(** A provider call answering [{ data, error }], or throwing. *)
Inductive Answer (A : Type) :=
| AnswerThrows (message : option string)   (* [Some m] for an [Error] with message [m] *)
| AnswerData (data : A) (error : option string).
Arguments AnswerThrows {A}.
Arguments AnswerData {A}.

(** What the handlers meet: whether [createClient()] (and, for
    check-session, [cookies()]) returns, and the answers of the provider. *)
Record CheckEnv := mkCheckEnv {
  ce_createClient : bool;
  ce_getSession : Answer (option Session);
  ce_getUser : Answer (option User)
}.

(** The JSON body of check-session: [{ success, hasSession, user?, error? }] *)
Record CheckResponse := mkCheckResponse {
  cr_success : bool;
  cr_hasSession : bool;
  cr_user : option User;
  cr_error : option string
}.

Definition checkFailure (message : string) : CheckResponse :=
  mkCheckResponse false false None (Some message).

Definition checkFound (u : User) : CheckResponse :=
  mkCheckResponse true true (Some (mkUser (user_id u) (user_email u))) None.

(** [GET] of [app/api/auth/check-session/route.ts] *)
Definition checkSessionGET (env : CheckEnv) : CheckResponse :=
  if negb (ce_createClient env) then checkFailure "Internal server error"
  else
    match ce_getSession env with
    | AnswerThrows _ => checkFailure "Internal server error"
    | AnswerData _ (Some message) => checkFailure message
    | AnswerData (Some session) None => checkFound (session_user session)
    | AnswerData None None =>
        match ce_getUser env with
        | AnswerThrows _ => checkFailure "Internal server error"
        | AnswerData _ (Some message) => checkFailure message
        | AnswerData (Some u) None => checkFound u
        | AnswerData None None => checkFailure "No session or user found"
        end
    end.


(** A row of the [users] table as test-session selects it. *)
Record UserRow := mkUserRow {
  row_id : string;
  row_email : string;
  row_role : string;
  row_status : string
}.

Record TestEnv := mkTestEnv {
  te_createClient : option (option string);   (* [Some e]: it throws [e] *)
  te_getUser : Answer (option User);
  te_profile : Answer (option UserRow)
}.

(** The JSON body of test-session. *)
Record TestResponse := mkTestResponse {
  tr_authenticated : bool;
  tr_user : option User;
  tr_profile : option UserRow;
  tr_profileError : option string;
  tr_error : option string;
  tr_cookies : gmap string string
}.

(** [error instanceof Error ? error.message : 'Unknown error'] *)
Definition thrownMessage (thrown : option string) : string :=
  default "Unknown error" thrown.

(** [authError?.message || 'No user found'] *)
Definition authErrorMessage (authError : option string) : string :=
  match authError with
  | Some m => if Js.truthy m then m else "No user found"
  | None => "No user found"
  end.

Definition testFailure (message : string) (cookies : gmap string string)
  : TestResponse :=
  mkTestResponse false None None None (Some message) cookies.

(** [GET] of [app/api/test-session/route.ts]; [cookies] is
    [request.cookies]. *)
Definition testSessionGET (cookies : gmap string string) (env : TestEnv)
  : TestResponse :=
  match te_createClient env with
  | Some thrown => testFailure (thrownMessage thrown) cookies
  | None =>
      match te_getUser env with
      | AnswerThrows thrown => testFailure (thrownMessage thrown) cookies
      | AnswerData _ (Some m) => testFailure (authErrorMessage (Some m)) cookies
      | AnswerData None None => testFailure (authErrorMessage None) cookies
      | AnswerData (Some u) None =>
          match te_profile env with
          | AnswerThrows thrown => testFailure (thrownMessage thrown) cookies
          | AnswerData userProfile profileError =>
              mkTestResponse true (Some (mkUser (user_id u) (user_email u)))
                             userProfile profileError None cookies
          end
      end
  end.

End Routes.

(** * Properties *)

(** ** Strings *)

Section StringFacts.

Lemma startsWith_inv (p s : string) :
  Js.startsWith p s = true → ∃ r, s = p +:+ r.
Proof.
  unfold Js.startsWith. revert s.
  induction p as [|a p IH]; intros s H.
  - by exists s.
  - destruct s as [|b s]; simpl in H; [done|].
    destruct (ascii_dec a b) as [->|]; [|done].
    destruct (IH _ H) as [r ->]. by exists r.
Qed.

Lemma startsWith_app (p r : string) : Js.startsWith p (p +:+ r) = true.
Proof.
  unfold Js.startsWith. induction p as [|a p IH].
  - by destruct r.
  - change (String a p +:+ r) with (String a (p +:+ r)). simpl.
    by destruct (ascii_dec a a).
Qed.

Lemma startsWith_trans (p q s : string) :
  Js.startsWith p q = true → Js.startsWith q s = true → Js.startsWith p s = true.
Proof.
  unfold Js.startsWith. revert q s.
  induction p as [|a p IH]; intros q s Hpq Hqs; [by destruct s|].
  destruct q as [|b q]; [done|]. destruct s as [|c s]; [done|].
  simpl in *.
  destruct (ascii_dec a b) as [->|]; [|done].
  destruct (ascii_dec b c) as [->|]; [|done].
  eauto.
Qed.

Lemma truthy_length (s : string) : Js.truthy s = false → String.length s = 0%nat.
Proof.
  unfold Js.truthy. intros H%negb_false_iff%String.eqb_eq. by subst.
Qed.

End StringFacts.

(** ** The request gate *)

Import Gate.

(** Case split on a member of [validLocales]. *)
Ltac locale_cases H :=
  unfold validLocales in H;
  rewrite !elem_of_cons, elem_of_nil in H;
  destruct H as [->|[->|[]]].

Section GateFacts.

Lemma en_valid : "en" ∈ validLocales.
Proof. unfold validLocales. repeat constructor. Qed.

Lemma ar_valid : "ar" ∈ validLocales.
Proof. unfold validLocales. repeat constructor. Qed.

Lemma carriesLocale_cases (locale p : string) :
  locale ∈ validLocales → carriesLocale locale p →
  (locale = "en" ∧ ((∃ r, p = "/en/" +:+ r) ∨ p = "/en"))
  ∨ (locale = "ar" ∧ ((∃ r, p = "/ar/" +:+ r) ∨ p = "/ar")).
Proof.
  intros Hl [H%startsWith_inv|H]; locale_cases Hl; eauto.
Qed.

Lemma carriesLocale_not_missing (locale p : string) :
  locale ∈ validLocales → carriesLocale locale p →
  pathnameIsMissingLocale p = false.
Proof.
  unfold carriesLocale, pathnameIsMissingLocale. simpl.
  intros Hl [H| ->]; locale_cases Hl; rewrite ?H; try done.
  simpl. apply andb_false_r.
Qed.

Lemma not_missing_carriesLocale (p : string) :
  pathnameIsMissingLocale p = false →
  ∃ locale, locale ∈ validLocales ∧ carriesLocale locale p.
Proof.
  unfold pathnameIsMissingLocale, carriesLocale. simpl.
  rewrite andb_true_r, !andb_false_iff, !negb_false_iff, !String.eqb_eq.
  intros [[H|H]|[H|H]].
  - exists "en". split; [apply en_valid | by left].
  - exists "en". split; [apply en_valid | by right].
  - exists "ar". split; [apply ar_valid | by left].
  - exists "ar". split; [apply ar_valid | by right].
Qed.

Lemma split_locale (locale r : string) :
  locale = "en" ∨ locale = "ar" →
  Js.split "/" (("/" +:+ locale +:+ "/") +:+ r) !! 1%nat = Some locale.
Proof.
  intros [-> | ->]; cbv [String.append]; simpl; by destruct (Js.split "/" r).
Qed.

Lemma carriesLocale_current (locale p : string) :
  locale ∈ validLocales → carriesLocale locale p → currentLocale p = locale.
Proof.
  intros Hl [[r ->]%startsWith_inv | ->]; unfold currentLocale.
  - rewrite split_locale; locale_cases Hl; auto.
  - by locale_cases Hl.
Qed.

Lemma currentLocale_valid (p : string) : currentLocale p ∈ validLocales.
Proof.
  unfold currentLocale. destruct (Js.split "/" p !! 1%nat) as [l|].
  - destruct (existsb (String.eqb l) validLocales) eqn:E.
    + apply existsb_exists in E as (x & Hx & ->%String.eqb_eq).
      by apply list_elem_of_In.
    + apply en_valid.
  - apply en_valid.
Qed.

(** No login or dashboard target equals the [en]-prefixed form of a path
    that already carries a locale. *)
Lemma locale_redirect_target (locale p : string) :
  locale ∈ validLocales → carriesLocale locale p →
  ∀ l' : string, l' ∈ validLocales →
  "/" +:+ l' +:+ "/auth/login" ≠ "/en" +:+ p
  ∧ "/" +:+ l' +:+ "/dashboard" ≠ "/en" +:+ p.
Proof.
  intros Hl Hp l' Hl'.
  destruct (carriesLocale_cases _ _ Hl Hp) as [[_ [[r ->]| ->]]|[_ [[r ->]| ->]]];
    locale_cases Hl'; cbv [String.append]; split; discriminate.
Qed.

Lemma redirectLoop_off_login (req : Request) :
  Js.includes "/auth/login" (pathname (nextUrl req)) = false →
  redirectLoop req = false.
Proof.
  intros H. unfold redirectLoop. destruct (referer req); [|done].
  rewrite H. by rewrite andb_false_r.
Qed.

Lemma searchParams_get_set (name value : string) (l : list (string * string)) :
  searchParams_get name (searchParams_set name value l) = Some value.
Proof.
  induction l as [|[k v] l IH]; simpl.
  - by rewrite String.eqb_refl.
  - destruct (String.eqb k name) eqn:E; simpl.
    + by rewrite String.eqb_refl.
    + by rewrite E.
Qed.

(** The adapter only ever writes cookies: the response stays a pass-through. *)
Lemma adapter_apply_kind (calls : list AdapterCall) (res : Response) :
  kind (foldl adapter_apply res calls) = kind res.
Proof.
  revert res. induction calls as [|c calls IH]; intros res; simpl; [done|].
  rewrite IH. by destruct c.
Qed.

Lemma afterLookup_kind (lk : Lookup) : kind (afterLookup lk) = Next.
Proof. unfold afterLookup. by rewrite adapter_apply_kind. Qed.

Lemma afterLookup_quiet (lk : Lookup) :
  lookup_writes lk = [] → afterLookup lk = NextResponse_next.
Proof. unfold afterLookup. by intros ->. Qed.

Lemma isTruncated_short (value : string) :
  String.length value = 5%nat → isTruncated (Some value) = true.
Proof.
  intros Hlen. unfold isTruncated.
  destruct (Js.truthy value) eqn:Ht; simpl.
  - destruct (Js.endsWith "..." value); [done|]. by rewrite Hlen.
  - apply truthy_length in Ht. congruence.
Qed.

Lemma isTruncated_empty (cookie : option string) :
  missingOrEmpty cookie → isTruncated cookie = false.
Proof. by intros [-> | ->]. Qed.

Lemma cookieCheck_valid (req : Request) (session : option Session)
    (pub : bool) (locale : string) (res : Response) :
  isTruncated (req_cookies req !! "sb-auth-token.0") = false →
  isTruncated (req_cookies req !! "sb-auth-token.1") = false →
  cookieCheck req session pub locale res = (res, None).
Proof. unfold cookieCheck. by intros -> ->. Qed.

Lemma cookieCheck_session (req : Request) (s : Session)
    (pub : bool) (locale : string) (res : Response) :
  cookieCheck req (Some s) pub locale res = (res, None).
Proof. unfold cookieCheck. by case_match. Qed.

Lemma cookieCheck_short (req : Request) (name value : string)
    (pub : bool) (locale : string) (res : Response) :
  name = "sb-auth-token.0" ∨ name = "sb-auth-token.1" →
  req_cookies req !! name = Some value →
  String.length value = 5%nat →
  cookieCheck req None pub locale res
  = (clearAuthCookies res,
     if pub then None else Some (loginRedirect req locale)).
Proof.
  intros Hname Hcookie Hlen. unfold cookieCheck.
  assert (isTruncated (req_cookies req !! "sb-auth-token.0")
          || isTruncated (req_cookies req !! "sb-auth-token.1") = true) as ->.
  { destruct Hname as [-> | ->]; rewrite Hcookie, (isTruncated_short _ Hlen);
      [done | apply orb_true_r]. }
  by destruct pub.
Qed.

(** The root path never reaches the block written for it: it lacks a locale
    and is sent to [/en/] first, with or without a session. *)
Lemma root_path_gets_locale (req : Request) (lk : Lookup) (session : option Session) :
  pathname (nextUrl req) = "/" →
  lookup_outcome lk = Resolved session None →
  middleware req lk
  = mkResponse (Redirect (mkUrl "/en/" (searchParams (nextUrl req))) 307) ∅.
Proof.
  intros Hp Hlk. unfold middleware, redirectLoop. cbv zeta.
  rewrite Hp, Hlk. simpl. by destruct (referer req); rewrite ?andb_false_r.
Qed.

(** In the composed gate a request without a session reaches the cookie check
    only on a public route; there a short token makes the gate answer with
    the pass-through response carrying the two cleared cookies. *)
Lemma gate_clears_short_token (req : Request) (lk : Lookup)
    (locale name value : string) :
  excluded (pathname (nextUrl req)) = false →
  redirectLoop req = false →
  lookup_outcome lk = Resolved None None →
  locale ∈ validLocales →
  carriesLocale locale (pathname (nextUrl req)) →
  isPublicRoute locale (pathname (nextUrl req)) = true →
  name = "sb-auth-token.0" ∨ name = "sb-auth-token.1" →
  req_cookies req !! name = Some value →
  String.length value = 5%nat →
  middleware req lk = clearAuthCookies (afterLookup lk).
Proof.
  intros Hexcl Hloop Hlk Hl Hp Hpub Hname Hcookie Hlen.
  unfold middleware. cbv zeta.
  rewrite Hexcl, Hloop, Hlk.
  rewrite (carriesLocale_not_missing _ _ Hl Hp), (carriesLocale_current _ _ Hl Hp).
  rewrite Hpub. simpl.
  rewrite (cookieCheck_short _ _ _ _ _ _ Hname Hcookie Hlen).
  destruct (String.eqb _ "/") eqn:E; [|done].
  apply String.eqb_eq in E.
  pose proof (carriesLocale_not_missing _ _ Hl Hp) as Hmiss.
  by rewrite E in Hmiss.
Qed.

(** Without a session, a request for a protected route is redirected before
    the cookie check: whatever its cookies, the response carries none, so a
    truncated token is not cleared there. *)
Lemma gate_redirect_without_clearing (req : Request) (lk : Lookup)
    (locale : string) :
  excluded (pathname (nextUrl req)) = false →
  lookup_outcome lk = Resolved None None →
  locale ∈ validLocales →
  carriesLocale locale (pathname (nextUrl req)) →
  isPublicRoute locale (pathname (nextUrl req)) = false →
  Js.includes "/auth/login" (pathname (nextUrl req)) = false →
  middleware req lk = loginRedirect req locale
  ∧ res_cookies (middleware req lk) = ∅.
Proof.
  intros Hexcl Hlk Hl Hp Hpub Hlogin.
  assert (middleware req lk = loginRedirect req locale) as ->; [|done].
  unfold middleware. cbv zeta.
  rewrite Hexcl, (redirectLoop_off_login _ Hlogin), Hlk.
  rewrite (carriesLocale_not_missing _ _ Hl Hp), (carriesLocale_current _ _ Hl Hp).
  by rewrite Hpub, Hlogin.
Qed.

(** The redirect built inside the cookie check is a fresh response: the two
    cookies cleared just before it are on the response left behind. *)
Lemma cookieCheck_redirect_is_fresh (req : Request) (name value locale : string)
    (res : Response) :
  name = "sb-auth-token.0" ∨ name = "sb-auth-token.1" →
  req_cookies req !! name = Some value →
  String.length value = 5%nat →
  ∃ early, (cookieCheck req None false locale res).2 = Some early
           ∧ res_cookies early = ∅.
Proof.
  intros Hname Hcookie Hlen.
  rewrite (cookieCheck_short _ _ _ _ _ _ Hname Hcookie Hlen). by eexists.
Qed.

(** With a session the gate never writes a cookie of its own. *)
Lemma gate_session_keeps_cookies (req : Request) (lk : Lookup) (s : Session) :
  lookup_outcome lk = Resolved (Some s) None →
  middleware req lk = afterLookup lk
  ∨ res_cookies (middleware req lk) = ∅.
Proof.
  intros Hlk. unfold middleware. cbv zeta. rewrite Hlk.
  rewrite cookieCheck_session. repeat case_match; auto.
Qed.

End GateFacts.

Section GateClaims.




(** C2. A request that reaches the session lookup (not excluded, not stopped
    by the referer loop-breaker) and whose lookup times out, throws, or
    reports an error gets the pass-through response: no redirect, and no
    cookie beyond what the provider client wrote through the adapter (none at
    all when it wrote none). The gate is a total function: there is no
    error outcome. *)
Theorem gate_fails_open (req : Request) (lk : Lookup) :
  excluded (pathname (nextUrl req)) = false →
  redirectLoop req = false →
  (lookup_outcome lk = Timeout
   ∨ lookup_outcome lk = Rejected
   ∨ ∃ session e, lookup_outcome lk = Resolved session (Some e)) →
  middleware req lk = afterLookup lk
  ∧ kind (middleware req lk) = Next
  ∧ (lookup_writes lk = [] → middleware req lk = NextResponse_next).
Proof.
  intros Hexcl Hloop Hlk.
  assert (middleware req lk = afterLookup lk) as ->.
  { unfold middleware. cbv zeta. rewrite Hexcl, Hloop.
    destruct Hlk as [-> | [-> | (session & e & ->)]]; done. }
  split; [done|]. split; [apply afterLookup_kind | apply afterLookup_quiet].
Qed.

Lemma gate_fails_open_witness :
  middleware (mkRequest (mkUrl "/en/contracts" []) ∅ None) (mkLookup [] Timeout)
  = NextResponse_next.
Proof.
  apply (gate_fails_open (mkRequest (mkUrl "/en/contracts" []) ∅ None)
                         (mkLookup [] Timeout)).
  - reflexivity.
  - reflexivity.
  - left. reflexivity.
  - reflexivity.
Defined.

(** C3. A request for the protected route [/en/contracts] that carries the
    five-character token [abcde] and has no session is answered with the
    redirect to the login page, and that response clears no cookie: the
    redirect for protected routes returns before the cookie check is
    reached, so neither named cookie is set on what the gate sends. *)
Theorem short_token_redirect_clears_nothing :
  isTruncated (Some "abcde") = true
  ∧ isPublicRoute "en" "/en/contracts" = false
  ∧ middleware (mkRequest (mkUrl "/en/contracts" [])
                          {[ "sb-auth-token.0" := "abcde" ]} None)
               (mkLookup [] (Resolved None None))
    = mkResponse
        (Redirect (mkUrl "/en/auth/login" [("redirect", "/en/contracts")]) 307) ∅
  ∧ res_cookies
      (middleware (mkRequest (mkUrl "/en/contracts" [])
                             {[ "sb-auth-token.0" := "abcde" ]} None)
                  (mkLookup [] (Resolved None None)))
    !! "sb-auth-token.0" = None
  ∧ res_cookies
      (middleware (mkRequest (mkUrl "/en/contracts" [])
                             {[ "sb-auth-token.0" := "abcde" ]} None)
                  (mkLookup [] (Resolved None None)))
    !! "sb-auth-token.1" = None.
Proof. repeat split; reflexivity. Qed.

(** C4. At the root path with a session the gate answers with a redirect to
    [/en/], not to the dashboard: the path lacks a locale, so the locale
    redirect returns before the block written for the root path. *)
Theorem root_path_with_session :
  middleware (mkRequest (mkUrl "/" []) ∅ None)
             (mkLookup [] (Resolved
                             (Some (mkSession (mkUser "u1" "u1@cms.example")
                                              "a" "r" 3600 "bearer"))
                             None))
  = mkResponse (Redirect (mkUrl "/en/" []) 307) ∅.
Proof. reflexivity. Qed.

(** C5, as amended. For a request whose path (a URL path, so starting with
    [/]) is not excluded and lacks a recognized locale, when the referer
    loop-breaker does not apply and the session lookup resolves without an
    error, the gate redirects to the same path prefixed with [/en]. The
    prefixed path carries a locale, and no request whose path carries a
    locale is ever redirected to its [/en]-prefixed form. *)
Theorem locale_prefixed_once (req : Request) (lk : Lookup)
    (session : option Session) :
  excluded (pathname (nextUrl req)) = false →
  redirectLoop req = false →
  lookup_outcome lk = Resolved session None →
  pathnameIsMissingLocale (pathname (nextUrl req)) = true →
  Js.startsWith "/" (pathname (nextUrl req)) = true →
  middleware req lk
  = mkResponse
      (Redirect (mkUrl ("/en" +:+ pathname (nextUrl req)) (searchParams (nextUrl req)))
                307)
      ∅
  ∧ pathnameIsMissingLocale ("/en" +:+ pathname (nextUrl req)) = false
  ∧ (∀ (req' : Request) (lk' : Lookup) (url : Url) (status : Z),
       pathnameIsMissingLocale (pathname (nextUrl req')) = false →
       kind (middleware req' lk') = Redirect url status →
       pathname url ≠ "/en" +:+ pathname (nextUrl req')).
Proof.
  intros Hexcl Hloop Hlk Hmiss Hslash. split; [|split].
  - unfold middleware. cbv zeta. by rewrite Hexcl, Hloop, Hlk, Hmiss.
  - apply startsWith_inv in Hslash as [r ->].
    apply (carriesLocale_not_missing "en"); [apply en_valid|].
    left. apply (startsWith_app "/en/" r).
  - clear. intros req lk url status Hloc.
    destruct (not_missing_carriesLocale _ Hloc) as (locale & Hl & Hp).
    pose proof (locale_redirect_target _ _ Hl Hp _
                  (currentLocale_valid (pathname (nextUrl req)))) as [Hlogin Hdash].
    assert (String.eqb (pathname (nextUrl req)) "/" = false) as Hroot.
    { apply String.eqb_neq. intros E. by rewrite E in Hloc. }
    unfold middleware, loginRedirect, NextResponse_redirect. cbv zeta.
    rewrite Hloc, Hroot.
    destruct (excluded _); [done|]. destruct (redirectLoop req); [done|].
    destruct (lookup_outcome lk) as [| |s [e|]];
      rewrite ?afterLookup_kind; try done.
    destruct s as [s|]; simpl.
    + rewrite cookieCheck_session.
      destruct (Js.startsWith _ _); simpl; [by intros [= <- _]|].
      by rewrite afterLookup_kind.
    + destruct (isPublicRoute _ _); simpl.
      * unfold cookieCheck.
        destruct (isTruncated _ || isTruncated _); simpl;
          by rewrite ?afterLookup_kind.
      * destruct (Js.includes _ _); simpl; [by rewrite afterLookup_kind|].
        by intros [= <- _].
Qed.

Lemma locale_prefixed_once_witness :
  middleware (mkRequest (mkUrl "/dashboard" []) ∅ None)
             (mkLookup [] (Resolved None None))
  = mkResponse (Redirect (mkUrl "/en/dashboard" []) 307) ∅.
Proof.
  apply (locale_prefixed_once (mkRequest (mkUrl "/dashboard" []) ∅ None)
                              (mkLookup [] (Resolved None None)) None).
  - reflexivity.
  - reflexivity.
  - reflexivity.
  - reflexivity.
  - reflexivity.
Defined.

(** C5, as stated, fails: a path that is not excluded and lacks a locale is
    passed through, not redirected, when the referer loop-breaker applies
    ([/auth/login] reached from a login page) and when the lookup times
    out. *)
Lemma locale_prefix_not_unconditional :
  (excluded "/auth/login" = false
   ∧ pathnameIsMissingLocale "/auth/login" = true
   ∧ middleware (mkRequest (mkUrl "/auth/login" []) ∅
                            (Some "https://cms.example/en/auth/login"))
                (mkLookup [] (Resolved None None))
     = NextResponse_next)
  ∧ (excluded "/dashboard" = false
     ∧ pathnameIsMissingLocale "/dashboard" = true
     ∧ middleware (mkRequest (mkUrl "/dashboard" []) ∅ None) (mkLookup [] Timeout)
       = NextResponse_next).
Proof. repeat split; reflexivity. Qed.

(** C6. A request that passed the exclusion and loop-breaker steps, whose
    lookup reports a session, and whose path targets the login page
    [/<locale>/auth/login] is redirected (302) to [/<locale>/dashboard]. *)
Theorem session_on_login_page (req : Request) (lk : Lookup) (s : Session)
    (locale : string) :
  excluded (pathname (nextUrl req)) = false →
  redirectLoop req = false →
  lookup_outcome lk = Resolved (Some s) None →
  locale ∈ validLocales →
  Js.startsWith ("/" +:+ locale +:+ "/auth/login") (pathname (nextUrl req)) = true →
  middleware req lk
  = mkResponse
      (Redirect (mkUrl ("/" +:+ locale +:+ "/dashboard") (searchParams (nextUrl req)))
                302)
      ∅.
Proof.
  intros Hexcl Hloop Hlk Hl Hp.
  assert (carriesLocale locale (pathname (nextUrl req))) as Hc.
  { left. refine (startsWith_trans _ _ _ _ Hp). clear -Hl. by locale_cases Hl. }
  unfold middleware. cbv zeta.
  rewrite Hexcl, Hloop, Hlk.
  rewrite (carriesLocale_not_missing _ _ Hl Hc), (carriesLocale_current _ _ Hl Hc).
  by rewrite Hp.
Qed.

Lemma session_on_login_page_witness :
  middleware (mkRequest (mkUrl "/ar/auth/login" [("redirect", "/ar/contracts")]) ∅ None)
             (mkLookup [] (Resolved
                             (Some (mkSession (mkUser "u1" "u1@cms.example")
                                              "a" "r" 3600 "bearer"))
                             None))
  = mkResponse
      (Redirect (mkUrl "/ar/dashboard" [("redirect", "/ar/contracts")]) 302) ∅.
Proof.
  apply (session_on_login_page
           (mkRequest (mkUrl "/ar/auth/login" [("redirect", "/ar/contracts")]) ∅ None)
           (mkLookup [] (Resolved
                           (Some (mkSession (mkUser "u1" "u1@cms.example")
                                            "a" "r" 3600 "bearer"))
                           None))
           (mkSession (mkUser "u1" "u1@cms.example") "a" "r" 3600 "bearer") "ar").
  - reflexivity.
  - reflexivity.
  - reflexivity.
  - unfold validLocales. repeat constructor.
  - reflexivity.
Defined.

(** C9. When both named cookies are missing or empty, neither counts as
    truncated (an empty value is shorter than 10 characters all the same),
    so the cookie check changes nothing and returns nothing, whatever the
    session; and the gate as a whole answers with the response as the lookup
    left it, or with a fresh response that carries no cookie. *)
Theorem empty_cookies_never_cleared (req : Request) :
  missingOrEmpty (req_cookies req !! "sb-auth-token.0") →
  missingOrEmpty (req_cookies req !! "sb-auth-token.1") →
  isTruncated (req_cookies req !! "sb-auth-token.0") = false
  ∧ isTruncated (req_cookies req !! "sb-auth-token.1") = false
  ∧ (∀ (session : option Session) (pub : bool) (locale : string) (res : Response),
       cookieCheck req session pub locale res = (res, None))
  ∧ (∀ lk : Lookup,
       middleware req lk = afterLookup lk
       ∨ res_cookies (middleware req lk) = ∅).
Proof.
  intros H0%isTruncated_empty H1%isTruncated_empty.
  split; [done|]. split; [done|]. split.
  - intros. by apply cookieCheck_valid.
  - intros lk. unfold middleware. cbv zeta.
    destruct (lookup_outcome lk) as [| |session [e|]];
      rewrite ?cookieCheck_valid by done; repeat case_match; auto.
Qed.

Lemma empty_cookies_never_cleared_witness :
  cookieCheck (mkRequest (mkUrl "/en/demo" []) {[ "sb-auth-token.0" := "" ]} None)
              None false "en" NextResponse_next
  = (NextResponse_next, None).
Proof.
  apply (empty_cookies_never_cleared
           (mkRequest (mkUrl "/en/demo" []) {[ "sb-auth-token.0" := "" ]} None)).
  - right. reflexivity.
  - left. reflexivity.
Defined.

End GateClaims.

(** ** Further properties of the request gate *)

Section GateCoverage.

Lemma includes_tail (needle : string) (c : ascii) (s : string) :
  Js.includes needle s = true → Js.includes needle (String c s) = true.
Proof. simpl. intros ->. apply orb_true_r. Qed.

Lemma includes_startsWith (needle s : string) :
  Js.startsWith needle s = true → Js.includes needle s = true.
Proof. unfold Js.startsWith. destruct s; simpl; by intros ->. Qed.

Lemma includes_app (needle p s : string) :
  Js.includes needle s = true → Js.includes needle (p +:+ s) = true.
Proof.
  intros H. induction p as [|a p IH]; [done|].
  change (String a p +:+ s) with (String a (p +:+ s)).
  by apply includes_tail.
Qed.

Lemma split_length (sep : ascii) (s : string) :
  length (Js.split sep s) = S (Js.count sep s).
Proof.
  induction s as [|a s IH]; simpl; [done|].
  destruct (Ascii.eqb a sep); simpl; [by rewrite IH|].
  destruct (Js.split sep s); simpl in *; lia.
Qed.

Lemma clearAuthCookies_kind (res : Response) :
  kind (clearAuthCookies res) = kind res.
Proof. done. Qed.

Lemma valid_locale_cases (l : string) :
  l ∈ validLocales → l = "en" ∨ l = "ar".
Proof. intros H. locale_cases H; auto. Qed.

(** What the gate answers to a request whose path carries a locale and
    whose lookup resolved without an error. *)
Lemma middleware_with_locale (req : Request) (lk : Lookup)
    (session : option Session) (locale : string) :
  excluded (pathname (nextUrl req)) = false →
  redirectLoop req = false →
  lookup_outcome lk = Resolved session None →
  locale ∈ validLocales →
  carriesLocale locale (pathname (nextUrl req)) →
  middleware req lk =
    match session with
    | None =>
        if isPublicRoute locale (pathname (nextUrl req)) then
          if isTruncated (req_cookies req !! "sb-auth-token.0")
             || isTruncated (req_cookies req !! "sb-auth-token.1")
          then clearAuthCookies (afterLookup lk)
          else afterLookup lk
        else if Js.includes "/auth/login" (pathname (nextUrl req))
             then afterLookup lk
             else loginRedirect req locale
    | Some _ =>
        if Js.startsWith ("/" +:+ locale +:+ "/auth/login") (pathname (nextUrl req))
        then NextResponse_redirect
               (mkUrl ("/" +:+ locale +:+ "/dashboard") (searchParams (nextUrl req)))
               (Some 302%Z)
        else afterLookup lk
    end.
Proof.
  intros Hexcl Hloop Hlk Hl Hp.
  pose proof (carriesLocale_not_missing _ _ Hl Hp) as Hmiss.
  assert (String.eqb (pathname (nextUrl req)) "/" = false) as Hroot.
  { apply String.eqb_neq. intros E. by rewrite E in Hmiss. }
  unfold middleware. cbv zeta.
  rewrite Hexcl, Hloop, Hlk, Hmiss, (carriesLocale_current _ _ Hl Hp).
  destruct session as [s|]; simpl.
  - rewrite cookieCheck_session, Hroot. by case_match.
  - destruct (isPublicRoute _ _); simpl; [|done].
    unfold cookieCheck.
    destruct (isTruncated _ || isTruncated _); simpl; by rewrite Hroot.
Qed.

(** X1. A redirect never carries a cookie: whatever the provider client
    wrote through the cookie adapter during the lookup (a refreshed token,
    say) was written on [res], and every redirect is a fresh response. *)
Theorem redirect_carries_no_cookie (req : Request) (lk : Lookup)
    (url : Url) (status : Z) :
  kind (middleware req lk) = Redirect url status →
  res_cookies (middleware req lk) = ∅.
Proof.
  unfold middleware, loginRedirect, NextResponse_redirect, cookieCheck. cbv zeta.
  repeat case_match; simplify_eq/=; try done;
    rewrite ?afterLookup_kind; done.
Qed.

Lemma redirect_carries_no_cookie_witness :
  res_cookies
    (middleware
       (mkRequest (mkUrl "/dashboard" []) ∅ None)
       (mkLookup [AdapterSet "sb-auth-token.0" "header.payload.signature"
                             (mkOptions (Some "/") None None None None None None)]
                 (Resolved None None)))
  = ∅.
Proof.
  apply (redirect_carries_no_cookie _ _ (mkUrl "/en/dashboard" []) 307).
  reflexivity.
Defined.


Lemma foldl_adapter_lookup_ne (calls : list AdapterCall) (res : Response)
    (name : string) :
  (∀ call, call ∈ calls → call_name call ≠ name) →
  res_cookies (foldl adapter_apply res calls) !! name = res_cookies res !! name.
Proof.
  revert res. induction calls as [|c calls IH]; intros res Hne; simpl; [done|].
  rewrite IH by (intros call Hin; apply Hne; by right).
  assert (call_name c ≠ name) as Hc by (apply Hne; by left).
  destruct c; simpl in *; by rewrite lookup_insert_ne.
Qed.

Lemma afterLookup_last_write (lk : Lookup) (pre post : list AdapterCall)
    (call : AdapterCall) :
  lookup_writes lk = pre ++ call :: post →
  (∀ later, later ∈ post → call_name later ≠ call_name call) →
  res_cookies (afterLookup lk) !! call_name call = Some (call_cookie call).
Proof.
  intros Hw Hpost. unfold afterLookup. rewrite Hw, foldl_app. simpl.
  rewrite foldl_adapter_lookup_ne by done.
  destruct call; simpl; apply lookup_insert_eq.
Qed.

Lemma middleware_not_reached (req : Request) (lk : Lookup) :
  excluded (pathname (nextUrl req)) = true ∨ redirectLoop req = true →
  middleware req lk = NextResponse_next.
Proof.
  unfold middleware. cbv zeta. intros [-> | ->]; [done|]. by case_match.
Qed.

Lemma middleware_lookup_failed (req : Request) (lk : Lookup) :
  excluded (pathname (nextUrl req)) = false →
  redirectLoop req = false →
  (∀ session, lookup_outcome lk ≠ Resolved session None) →
  middleware req lk = afterLookup lk.
Proof.
  intros Hexcl Hloop Hlk. unfold middleware. cbv zeta. rewrite Hexcl, Hloop.
  destruct (lookup_outcome lk) as [| |session [e|]]; try done.
  by destruct (Hlk session).
Qed.

Lemma middleware_missing_locale (req : Request) (lk : Lookup)
    (session : option Session) :
  excluded (pathname (nextUrl req)) = false →
  redirectLoop req = false →
  lookup_outcome lk = Resolved session None →
  pathnameIsMissingLocale (pathname (nextUrl req)) = true →
  middleware req lk
  = mkResponse
      (Redirect (mkUrl ("/en" +:+ pathname (nextUrl req)) (searchParams (nextUrl req)))
                307)
      ∅.
Proof.
  intros Hexcl Hloop Hlk Hmiss. unfold middleware. cbv zeta.
  by rewrite Hexcl, Hloop, Hlk, Hmiss.
Qed.

Lemma redirect_cases (req : Request) (lk : Lookup)
    (url : Url) (status : Z) :
  kind (middleware req lk) = Redirect url status →
  ∃ session,
    lookup_outcome lk = Resolved session None
    ∧ excluded (pathname (nextUrl req)) = false
    ∧ redirectLoop req = false
    ∧ ((pathnameIsMissingLocale (pathname (nextUrl req)) = true
        ∧ url = mkUrl ("/en" +:+ pathname (nextUrl req)) (searchParams (nextUrl req))
        ∧ status = 307%Z)
       ∨ (∃ locale,
            locale ∈ validLocales
            ∧ carriesLocale locale (pathname (nextUrl req))
            ∧ ((session = None
                ∧ isPublicRoute locale (pathname (nextUrl req)) = false
                ∧ Js.includes "/auth/login" (pathname (nextUrl req)) = false
                ∧ url = mkUrl ("/" +:+ locale +:+ "/auth/login")
                              (searchParams_set "redirect" (pathname (nextUrl req))
                                                (searchParams (nextUrl req)))
                ∧ status = 307%Z)
               ∨ (is_Some session
                  ∧ Js.startsWith ("/" +:+ locale +:+ "/auth/login")
                                  (pathname (nextUrl req)) = true
                  ∧ url = mkUrl ("/" +:+ locale +:+ "/dashboard")
                                (searchParams (nextUrl req))
                  ∧ status = 302%Z)))).
Proof.
  intros Hkind.
  destruct (excluded (pathname (nextUrl req))) eqn:Hexcl.
  { by rewrite middleware_not_reached in Hkind by auto. }
  destruct (redirectLoop req) eqn:Hloop.
  { by rewrite middleware_not_reached in Hkind by auto. }
  destruct (lookup_outcome lk) as [| |session [e|]] eqn:Hlk.
  1-3: rewrite middleware_lookup_failed in Hkind by (by rewrite ?Hlk);
       by rewrite afterLookup_kind in Hkind.
  exists session. repeat split; try done.
  destruct (pathnameIsMissingLocale (pathname (nextUrl req))) eqn:Hmiss.
  - left. rewrite (middleware_missing_locale _ _ _ Hexcl Hloop Hlk Hmiss) in Hkind.
    by simplify_eq/=.
  - right. destruct (not_missing_carriesLocale _ Hmiss) as (locale & Hl & Hp).
    exists locale. split; [done|]. split; [done|].
    rewrite (middleware_with_locale _ _ _ _ Hexcl Hloop Hlk Hl Hp) in Hkind.
    destruct session as [s|].
    + right. destruct (Js.startsWith _ _); simpl in Hkind.
      * by simplify_eq/=.
      * by rewrite afterLookup_kind in Hkind.
    + left. destruct (isPublicRoute _ _).
      * destruct (isTruncated _ || isTruncated _);
          by rewrite ?clearAuthCookies_kind, afterLookup_kind in Hkind.
      * destruct (Js.includes _ _); [by rewrite afterLookup_kind in Hkind|].
        unfold loginRedirect in Hkind. by simplify_eq/=.
Qed.


(** X2. The redirects the gate can answer with are exactly three, and each
    needs a lookup that resolved without an error on a path that is neither
    excluded nor stopped by the loop-breaker: the locale redirect to
    [/en] followed by the path (307) when the path lacks a locale; the login
    redirect (307) when there is no session, the path is not public and does
    not contain [/auth/login]; the dashboard redirect (302) when there is a
    session and the path starts with the login page of its locale. *)
Theorem redirects_classified (req : Request) (lk : Lookup)
    (url : Url) (status : Z) :
  kind (middleware req lk) = Redirect url status →
  ∃ session,
    lookup_outcome lk = Resolved session None
    ∧ excluded (pathname (nextUrl req)) = false
    ∧ redirectLoop req = false
    ∧ ((pathnameIsMissingLocale (pathname (nextUrl req)) = true
        ∧ url = mkUrl ("/en" +:+ pathname (nextUrl req)) (searchParams (nextUrl req))
        ∧ status = 307%Z)
       ∨ (∃ locale,
            locale ∈ validLocales
            ∧ carriesLocale locale (pathname (nextUrl req))
            ∧ ((session = None
                ∧ isPublicRoute locale (pathname (nextUrl req)) = false
                ∧ Js.includes "/auth/login" (pathname (nextUrl req)) = false
                ∧ url = mkUrl ("/" +:+ locale +:+ "/auth/login")
                              (searchParams_set "redirect" (pathname (nextUrl req))
                                                (searchParams (nextUrl req)))
                ∧ status = 307%Z)
               ∨ (is_Some session
                  ∧ Js.startsWith ("/" +:+ locale +:+ "/auth/login")
                                  (pathname (nextUrl req)) = true
                  ∧ url = mkUrl ("/" +:+ locale +:+ "/dashboard")
                                (searchParams (nextUrl req))
                  ∧ status = 302%Z)))).
Proof. apply redirect_cases. Qed.

Lemma redirects_classified_witness : excluded "/en/contracts" = false.
Proof.
  destruct (redirects_classified
              (mkRequest (mkUrl "/en/contracts" []) ∅ None)
              (mkLookup [] (Resolved None None))
              (mkUrl "/en/auth/login" [("redirect", "/en/contracts")]) 307)
    as (session & _ & H & _).
  - reflexivity.
  - exact H.
Defined.

Lemma redirect_target_locale (req : Request) (lk : Lookup) (url : Url) (status : Z) :
  Js.startsWith "/" (pathname (nextUrl req)) = true →
  kind (middleware req lk) = Redirect url status →
  ∃ locale, locale ∈ validLocales
            ∧ Js.startsWith ("/" +:+ locale +:+ "/") (pathname url) = true.
Proof.
  intros Hslash Hkind.
  destruct (redirect_cases _ _ _ _ Hkind)
    as (session & _ & _ & _ & [(_ & -> & _) | (locale & Hl & _ & H)]).
  - exists "en". split; [apply en_valid|].
    apply startsWith_inv in Hslash as [r ->]. apply (startsWith_app "/en/" r).
  - exists locale. split; [done|].
    destruct H as [(_ & _ & _ & -> & _) | (_ & _ & -> & _)];
      by locale_cases Hl.
Qed.

(** X3. No redirect loop: when a client follows the gate's redirects and
    the lookup keeps settling the same way, the third answer at the latest is
    a pass-through, whatever cookies and referer the follow-up requests
    carry. *)
Theorem at_most_two_redirects (req req1 req2 : Request) (lk lk1 lk2 : Lookup)
    (url1 url2 : Url) (status1 status2 : Z) :
  Js.startsWith "/" (pathname (nextUrl req)) = true →
  lookup_outcome lk1 = lookup_outcome lk →
  lookup_outcome lk2 = lookup_outcome lk →
  kind (middleware req lk) = Redirect url1 status1 →
  nextUrl req1 = url1 →
  kind (middleware req1 lk1) = Redirect url2 status2 →
  nextUrl req2 = url2 →
  kind (middleware req2 lk2) = Next.
Proof.
  intros Hslash Hlk1 Hlk2 Hkind <- Hkind1 <-.
  destruct (redirect_target_locale _ _ _ _ Hslash Hkind) as (l1 & Hl1 & Hp1).
  destruct (redirect_cases _ _ _ _ Hkind1)
    as (session & Hout & _ & _ & [(Hmiss & _) | (locale & Hl & Hp & H)]).
  { by rewrite (carriesLocale_not_missing l1) in Hmiss by (by try left). }
  rewrite Hlk1, <- Hlk2 in Hout.
  destruct (excluded (pathname (nextUrl req2))) eqn:Hexcl.
  { by rewrite middleware_not_reached by auto. }
  destruct (redirectLoop req2) eqn:Hloop.
  { by rewrite middleware_not_reached by auto. }
  destruct H as [(-> & _ & _ & Hurl & _) | ([s ->] & _ & Hurl & _)].
  - assert (carriesLocale locale (pathname (nextUrl req2))) as Hp2.
    { rewrite Hurl. left. by locale_cases Hl. }
    rewrite (middleware_with_locale _ _ _ locale Hexcl Hloop Hout Hl Hp2), Hurl.
    cbn [pathname].
    assert (isPublicRoute locale ("/" +:+ locale +:+ "/auth/login") = true) as ->
      by (by locale_cases Hl).
    destruct (isTruncated _ || isTruncated _);
      by rewrite ?clearAuthCookies_kind, afterLookup_kind.
  - assert (carriesLocale locale (pathname (nextUrl req2))) as Hp2.
    { rewrite Hurl. left. by locale_cases Hl. }
    rewrite (middleware_with_locale _ _ _ locale Hexcl Hloop Hout Hl Hp2), Hurl.
    cbn [pathname].
    assert (Js.startsWith ("/" +:+ locale +:+ "/auth/login")
                          ("/" +:+ locale +:+ "/dashboard") = false) as ->
      by (by locale_cases Hl).
    apply afterLookup_kind.
Qed.

Lemma at_most_two_redirects_witness :
  kind (middleware
          (mkRequest (mkUrl "/en/auth/login" [("redirect", "/en/")]) ∅ None)
          (mkLookup [] (Resolved None None)))
  = Next.
Proof.
  apply (at_most_two_redirects
           (mkRequest (mkUrl "/" []) ∅ None)
           (mkRequest (mkUrl "/en/" []) ∅ None)
           (mkRequest (mkUrl "/en/auth/login" [("redirect", "/en/")]) ∅ None)
           (mkLookup [] (Resolved None None))
           (mkLookup [] (Resolved None None))
           (mkLookup [] (Resolved None None))
           (mkUrl "/en/" [])
           (mkUrl "/en/auth/login" [("redirect", "/en/")])
           307 307).
  - reflexivity.
  - reflexivity.
  - reflexivity.
  - reflexivity.
  - reflexivity.
  - reflexivity.
  - reflexivity.
Defined.

(** X4. With a session, a request whose path carries a locale and is not
    under the login page is passed through, whatever its cookies (truncated
    tokens included), and the response carries what the provider client
    wrote: for each cookie name, its last write. *)
Theorem authenticated_with_locale (req : Request) (lk : Lookup) (s : Session)
    (locale : string) :
  excluded (pathname (nextUrl req)) = false →
  redirectLoop req = false →
  lookup_outcome lk = Resolved (Some s) None →
  locale ∈ validLocales →
  carriesLocale locale (pathname (nextUrl req)) →
  Js.startsWith ("/" +:+ locale +:+ "/auth/login") (pathname (nextUrl req)) = false →
  middleware req lk = afterLookup lk
  ∧ kind (middleware req lk) = Next
  ∧ ∀ pre call post,
      lookup_writes lk = pre ++ call :: post →
      (∀ later, later ∈ post → call_name later ≠ call_name call) →
      res_cookies (middleware req lk) !! call_name call = Some (call_cookie call).
Proof.
  intros Hexcl Hloop Hlk Hl Hp Hlogin.
  rewrite (middleware_with_locale _ _ _ _ Hexcl Hloop Hlk Hl Hp), Hlogin.
  split; [done|]. split; [apply afterLookup_kind|].
  intros pre call post. apply afterLookup_last_write.
Qed.

Lemma authenticated_with_locale_witness :
  kind (middleware
          (mkRequest (mkUrl "/en/contracts" []) {[ "sb-auth-token.0" := "abc..." ]}
                     None)
          (mkLookup [AdapterRemove "sb-auth-token.0"
                                   (mkOptions (Some "/") None None None None None None)]
                    (Resolved (Some (mkSession (mkUser "u1" "u1@cms.example")
                                               "a" "r" 3600 "bearer"))
                              None)))
  = Next.
Proof.
  apply (authenticated_with_locale
           (mkRequest (mkUrl "/en/contracts" []) {[ "sb-auth-token.0" := "abc..." ]}
                      None)
           (mkLookup [AdapterRemove "sb-auth-token.0"
                                    (mkOptions (Some "/") None None None None None None)]
                     (Resolved (Some (mkSession (mkUser "u1" "u1@cms.example")
                                                "a" "r" 3600 "bearer"))
                               None))
           (mkSession (mkUser "u1" "u1@cms.example") "a" "r" 3600 "bearer")
           "en").
  - reflexivity.
  - reflexivity.
  - reflexivity.
  - apply en_valid.
  - left. reflexivity.
  - reflexivity.
Defined.

(** X5. Without a session, a request for a public route is never
    redirected: it is passed through, with the two token cookies cleared when
    one of them is truncated and otherwise as the lookup left the
    response. *)
Theorem anonymous_on_public_route (req : Request) (lk : Lookup) (locale : string) :
  excluded (pathname (nextUrl req)) = false →
  redirectLoop req = false →
  lookup_outcome lk = Resolved None None →
  locale ∈ validLocales →
  carriesLocale locale (pathname (nextUrl req)) →
  isPublicRoute locale (pathname (nextUrl req)) = true →
  kind (middleware req lk) = Next
  ∧ middleware req lk
    = if isTruncated (req_cookies req !! "sb-auth-token.0")
         || isTruncated (req_cookies req !! "sb-auth-token.1")
      then clearAuthCookies (afterLookup lk)
      else afterLookup lk.
Proof.
  intros Hexcl Hloop Hlk Hl Hp Hpub.
  rewrite (middleware_with_locale _ _ _ _ Hexcl Hloop Hlk Hl Hp), Hpub.
  split; [|done].
  destruct (isTruncated _ || isTruncated _);
    by rewrite ?clearAuthCookies_kind, afterLookup_kind.
Qed.

Lemma anonymous_on_public_route_witness :
  kind (middleware
          (mkRequest (mkUrl "/ar/auth/signup" []) {[ "sb-auth-token.1" := "abc..." ]}
                     None)
          (mkLookup [] (Resolved None None)))
  = Next.
Proof.
  apply (anonymous_on_public_route
           (mkRequest (mkUrl "/ar/auth/signup" []) {[ "sb-auth-token.1" := "abc..." ]}
                      None)
           (mkLookup [] (Resolved None None)) "ar").
  - reflexivity.
  - reflexivity.
  - reflexivity.
  - apply ar_valid.
  - left. reflexivity.
  - reflexivity.
Defined.

(** X6. A cookie value passes the shape check exactly when it is empty, or
    it has at least 10 characters, does not end in three dots and contains
    exactly two dots. *)
Theorem isTruncated_valid_iff (value : string) :
  isTruncated (Some value) = false
  ↔ value = ""
    ∨ (Js.endsWith "..." value = false
       ∧ (10 ≤ String.length value)%nat
       ∧ Js.count "." value = 2%nat).
Proof.
  unfold isTruncated. rewrite split_length.
  destruct (Js.truthy value) eqn:Ht; simpl.
  - assert (value ≠ "") as Hne by (by intros ->).
    destruct (Js.endsWith "..." value).
    { split; [done|]. by intros [? | [? _]]. }
    destruct (Nat.ltb_spec (String.length value) 10) as [Hlt|Hge].
    { split; [done|]. intros [? | (_ & ? & _)]; [done | lia]. }
    destruct (Nat.eqb_spec (Js.count "." value) 2) as [Heq|Hneq]; simpl.
    + split; [|done]. intros _. right. by repeat split.
    + split; [done|]. by intros [? | (_ & _ & ?)].
  - apply negb_false_iff, String.eqb_eq in Ht. split; auto.
Qed.

Lemma existsb_startsWith_app (routes : list string) (p r : string) :
  existsb (λ route, Js.startsWith route p) routes = true →
  existsb (λ route, Js.startsWith route (p +:+ r)) routes = true.
Proof.
  rewrite !existsb_exists. intros (route & Hin & Hroute).
  exists route. split; [done|].
  apply (startsWith_trans _ p); [done | apply startsWith_app].
Qed.

(** X7. Public routes are matched by prefix: every path that extends a
    public path is public as well ([/en/demo-internal] as much as
    [/en/demo]). *)
Theorem public_route_prefix_closed (locale p r : string) :
  isPublicRoute locale p = true → isPublicRoute locale (p +:+ r) = true.
Proof. apply existsb_startsWith_app. Qed.

Lemma public_route_prefix_closed_witness :
  isPublicRoute "en" ("/en/demo" +:+ "-internal/reports") = true.
Proof.
  apply (public_route_prefix_closed "en" "/en/demo" "-internal/reports").
  reflexivity.
Defined.

(** X8. The entry [/test-login] of the public routes never matches: the
    public test is only reached by paths that carry a locale, and none of
    those starts with [/test-login]; a path found public is so by one of the
    locale-prefixed entries. *)
Theorem test_login_entry_unreachable (locale p : string) :
  locale ∈ validLocales →
  carriesLocale locale p →
  Js.startsWith "/test-login" p = false
  ∧ (isPublicRoute locale p = true →
     ∃ route, route ∈ publicRoutes locale
              ∧ Js.startsWith ("/" +:+ locale +:+ "/") route = true
              ∧ Js.startsWith route p = true).
Proof.
  intros Hl Hp.
  assert (Js.startsWith "/test-login" p = false) as Htest.
  { destruct (carriesLocale_cases _ _ Hl Hp) as [[_ [[r ->]| ->]]|[_ [[r ->]| ->]]];
      by cbv [String.append]. }
  split; [done|].
  unfold isPublicRoute. rewrite existsb_exists.
  intros (route & Hin%list_elem_of_In & Hroute).
  exists route. split; [done|]. split; [|done].
  unfold publicRoutes in Hin. rewrite !elem_of_cons, elem_of_nil in Hin.
  repeat (destruct Hin as [-> | Hin]; [by locale_cases Hl|]).
  destruct Hin as [-> | []]. congruence.
Qed.

Lemma test_login_entry_unreachable_witness :
  Js.startsWith "/test-login" "/en/test-login" = false.
Proof.
  apply (test_login_entry_unreachable "en" "/en/test-login").
  - apply en_valid.
  - left. reflexivity.
Defined.

(** X9. A path with a dot anywhere in it is excluded: the gate passes it
    through before any lookup, whatever the session, the cookies and the
    path around the dot ([/en/users/john.doe] as much as [/logo.png]). *)
Theorem dotted_path_bypasses_gate (a b : string) (req : Request) (lk : Lookup) :
  pathname (nextUrl req) = a +:+ "." +:+ b →
  excluded (pathname (nextUrl req)) = true
  ∧ middleware req lk = NextResponse_next.
Proof.
  intros Hp.
  assert (excluded (pathname (nextUrl req)) = true) as Hexcl.
  { unfold excluded. rewrite Hp.
    rewrite (includes_app "." a ("." +:+ b))
      by apply includes_startsWith, (startsWith_app "." b).
    by rewrite !orb_true_r. }
  split; [done|]. apply middleware_not_reached. auto.
Qed.

Lemma dotted_path_bypasses_gate_witness :
  middleware (mkRequest (mkUrl "/en/users/john.doe" []) ∅ None)
             (mkLookup [] (Resolved None None))
  = NextResponse_next.
Proof.
  apply (dotted_path_bypasses_gate "/en/users/john" "doe"
           (mkRequest (mkUrl "/en/users/john.doe" []) ∅ None)
           (mkLookup [] (Resolved None None))).
  reflexivity.
Defined.

Lemma searchParams_get_filter (name k : string) (l : list (string * string)) :
  k ≠ name →
  searchParams_get k (filter (λ p, negb (String.eqb (fst p) name)) l)
  = searchParams_get k l.
Proof.
  intros Hne. induction l as [|[k2 v2] l IH]; [done|].
  rewrite filter_cons. simpl.
  destruct (String.eqb k2 name) eqn:E2; simpl.
  - apply String.eqb_eq in E2 as ->.
    by rewrite (proj2 (String.eqb_neq name k)).
  - by rewrite IH.
Qed.

Lemma searchParams_get_set_ne (name value k : string) (l : list (string * string)) :
  k ≠ name →
  searchParams_get k (searchParams_set name value l) = searchParams_get k l.
Proof.
  intros Hne. induction l as [|[k' v'] l IH]; simpl.
  - by rewrite (proj2 (String.eqb_neq name k)).
  - destruct (String.eqb k' name) eqn:E; simpl.
    + apply String.eqb_eq in E as ->.
      rewrite !(proj2 (String.eqb_neq name k)) by done.
      by apply searchParams_get_filter.
    + by rewrite IH.
Qed.

Lemma searchParams_filter_none (name : string) (l : list (string * string)) :
  filter (λ p, p.1 = name) (filter (λ p, negb (String.eqb (fst p) name)) l) = [].
Proof.
  induction l as [|[k2 v2] l IH]; [done|].
  rewrite filter_cons. simpl.
  destruct (String.eqb k2 name) eqn:E2; simpl; [done|].
  rewrite filter_cons_False; [done|]. simpl. by apply String.eqb_neq.
Qed.

Lemma searchParams_set_once (name value : string) (l : list (string * string)) :
  length (filter (λ p, p.1 = name) (searchParams_set name value l)) = 1%nat.
Proof.
  induction l as [|[k v] l IH]; simpl.
  - by rewrite filter_cons_True.
  - destruct (String.eqb k name) eqn:E.
    + rewrite filter_cons_True by done. by rewrite searchParams_filter_none.
    + rewrite filter_cons_False by (simpl; by apply String.eqb_neq).
      done.
Qed.

(** X10. The login redirect keeps the query of the request: every parameter
    other than [redirect] reads as before, and the target has exactly one
    [redirect] parameter, the original path, even when the request already
    had some. *)
Theorem login_redirect_keeps_query (req : Request) (lk : Lookup) (locale : string) :
  excluded (pathname (nextUrl req)) = false →
  lookup_outcome lk = Resolved None None →
  locale ∈ validLocales →
  carriesLocale locale (pathname (nextUrl req)) →
  isPublicRoute locale (pathname (nextUrl req)) = false →
  Js.includes "/auth/login" (pathname (nextUrl req)) = false →
  ∃ url,
    kind (middleware req lk) = Redirect url 307
    ∧ (∀ k, k ≠ "redirect" →
            searchParams_get k (searchParams url)
            = searchParams_get k (searchParams (nextUrl req)))
    ∧ length (filter (λ p, p.1 = "redirect") (searchParams url)) = 1%nat
    ∧ searchParams_get "redirect" (searchParams url) = Some (pathname (nextUrl req)).
Proof.
  intros Hexcl Hlk Hl Hp Hpub Hlogin.
  destruct (gate_redirect_without_clearing _ _ _ Hexcl Hlk Hl Hp Hpub Hlogin)
    as [-> _].
  eexists. split; [reflexivity|]. simpl. split; [|split].
  - intros k Hk. by apply searchParams_get_set_ne.
  - apply searchParams_set_once.
  - apply searchParams_get_set.
Qed.

Lemma login_redirect_keeps_query_witness :
  ∃ url,
    kind (middleware
            (mkRequest (mkUrl "/en/contracts" [("redirect", "/x"); ("page", "2")])
                       ∅ None)
            (mkLookup [] (Resolved None None)))
    = Redirect url 307.
Proof.
  destruct (login_redirect_keeps_query
              (mkRequest (mkUrl "/en/contracts" [("redirect", "/x"); ("page", "2")])
                         ∅ None)
              (mkLookup [] (Resolved None None)) "en")
    as (url & H & _).
  - reflexivity.
  - reflexivity.
  - apply en_valid.
  - left. reflexivity.
  - reflexivity.
  - reflexivity.
  - by exists url.
Defined.

End GateCoverage.

(** ** The client auth-state cache *)

Import Auth.

Section AuthFacts.

Lemma updateState_authState (u : Updates) (svc : Service) :
  authState (updateState u svc) = spread (authState svc) u.
Proof. done. Qed.

Lemma updateState_delivered (u : Updates) (svc : Service) :
  delivered (updateState u svc)
  = delivered svc ++ ((λ l, (l, spread (authState svc) u)) <$> listeners svc).
Proof. done. Qed.

Lemma last_constant {A : Type} (x : A) (xs : list A) :
  xs ≠ [] → (∀ y, y ∈ xs → y = x) → last xs = Some x.
Proof.
  intros Hne Hall. destruct (last xs) as [y|] eqn:E.
  - f_equal. apply Hall. by apply last_Some_elem_of.
  - by apply last_None in E.
Qed.

(** Every update is broadcast: afterwards each registered listener has last
    been called with the new state. *)
Lemma updateState_lastDelivered (u : Updates) (svc : Service) (l : Listener) :
  l ∈ listeners svc →
  lastDelivered l (updateState u svc) = Some (authState (updateState u svc)).
Proof.
  intros Hl. unfold lastDelivered.
  rewrite updateState_delivered, updateState_authState, filter_app.
  set (st := spread (authState svc) u).
  assert (last (filter (λ d : Listener * AuthState, d.1 = l)
                       ((λ l0, (l0, st)) <$> listeners svc)) = Some (l, st)) as Hlast.
  { apply last_constant.
    - intros Hnil. eapply (filter_nil_not_elem_of _ _ (l, st)) in Hnil; [|done].
      apply Hnil. by apply (list_elem_of_fmap_2 (λ l0, (l0, st))).
    - intros [l' st'] [Hfst (l0 & [= -> ->] & _)%list_elem_of_fmap]%list_elem_of_filter.
      simpl in Hfst. by subst. }
  by rewrite last_app, Hlast.
Qed.

Lemma refreshFallback_clears (env : InitEnv) (svc : Service) :
  refreshFindsSession env = false →
  refreshFallback env svc = updateState clearSession svc.
Proof.
  unfold refreshFindsSession, refreshFallback.
  destruct (env_refreshSession env) as [|[rs|] [e|]]; try done.
  all: destruct (env_checkSession env) as [|data]; [done|].
  all: destruct (check_user data); [|done].
  all: by destruct (check_success data && check_hasSession data).
Qed.

(** When [getSession] resolves without a session and neither the refresh nor
    the fallback yields one, [initializeAuth] ends with the state cleared,
    and that state is the last one every listener received. *)
Lemma initializeAuth_no_session (env : InitEnv) (svc : Service) :
  env_window env || supabaseClient svc = true →
  env_getSession env = GetSessionData None →
  refreshFindsSession env = false →
  let svc' := (initializeAuth env svc).1 in
  cleared (authState svc')
  ∧ loading (authState svc') = false
  ∧ mounted (authState svc') = true
  ∧ (initializeAuth env svc).2 = None
  ∧ ∀ l, l ∈ listeners svc → lastDelivered l svc' = Some (authState svc').
Proof.
  intros Hclient Hget Hrefresh. unfold initializeAuth, ensureClient.
  rewrite Hget. simpl.
  destruct (negb (supabaseClient svc) && env_window env) eqn:E; simpl.
  - rewrite refreshFallback_clears by done.
    repeat split. intros l Hl. by apply updateState_lastDelivered.
  - assert (supabaseClient svc = true) as ->.
    { destruct (supabaseClient svc), (env_window env); done. }
    simpl. rewrite refreshFallback_clears by done.
    repeat split. intros l Hl. by apply updateState_lastDelivered.
Qed.

(** When [getSession] throws, the catch block resets [profile], [roles] and
    [loading] only: [session] and [user] stay what they were. *)
Lemma initializeAuth_getSession_throws (env : InitEnv) (svc : Service) :
  env_window env || supabaseClient svc = true →
  env_getSession env = GetSessionThrows →
  let svc' := (initializeAuth env svc).1 in
  session (authState svc') = session (authState svc)
  ∧ user (authState svc') = user (authState svc)
  ∧ mounted (authState svc') = mounted (authState svc)
  ∧ profile (authState svc') = None
  ∧ roles (authState svc') = []
  ∧ loading (authState svc') = false.
Proof.
  intros Hclient Hget. unfold initializeAuth, ensureClient. rewrite Hget.
  by destruct (supabaseClient svc), (env_window env).
Qed.

End AuthFacts.

Section AuthClaims.

(** C7. A service that holds a user and a session from a successful sign-in
    keeps both when a later [initializeAuth()] finds no session because
    [getSession] throws (refresh and fallback failing as well): the last
    state its subscriber receives has [profile] and [roles] reset but
    [session] and [user] still set. *)
Theorem stale_session_survives_failed_init :
  let u := mkUser "u1" "u1@cms.example" in
  let s := mkSession u "a" "r" 3600 "bearer" in
  let signedIn :=
    (signIn true (SignInData (Some u) (Some s) None) (subscribe 0 fresh).1).1 in
  let env := mkInitEnv true GetSessionThrows RefreshThrows CheckThrows in
  let svc' := (initializeAuth env signedIn).1 in
  session (authState svc') = Some s
  ∧ user (authState svc') = Some u
  ∧ lastDelivered 0 svc' = Some (authState svc')
  ∧ profile (authState svc') = None
  ∧ roles (authState svc') = [].
Proof. repeat split; reflexivity. Qed.

(** C8. [subscribe(callback)] on a fresh cache registers the callback, calls
    it exactly once, at once, with the current state, which is the initial
    one ([loading:true], [mounted:false]), and returns an unsubscribe
    function which, whenever it is called, removes that callback from the
    listener set and nothing else. *)
Theorem subscribe_fresh (listener : Listener) :
  let '(svc, unsubscribe) := subscribe listener fresh in
  listeners svc = [listener]
  ∧ delivered svc = [(listener, initialState)]
  ∧ authState svc = initialState
  ∧ loading initialState = true
  ∧ mounted initialState = false
  ∧ listeners (unsubscribe svc) = []
  ∧ ∀ svc' : Service,
      (listener ∉ listeners (unsubscribe svc'))
      ∧ (∀ l', l' ≠ listener →
            (l' ∈ listeners (unsubscribe svc') ↔ l' ∈ listeners svc'))
      ∧ authState (unsubscribe svc') = authState svc'
      ∧ delivered (unsubscribe svc') = delivered svc'.
Proof.
  simpl. unfold set_add, set_delete. simpl.
  repeat split; try done.
  - rewrite filter_cons. by destruct (decide (listener ≠ listener)).
  - rewrite list_elem_of_filter. tauto.
  - rewrite list_elem_of_filter. tauto.
  - rewrite list_elem_of_filter. tauto.
Qed.

Lemma subscribe_fresh_witness :
  listeners ((subscribe 7 fresh).2 (subscribe 7 fresh).1) = [].
Proof. apply (subscribe_fresh 7). Defined.

(** C10. [signOut()] is all or nothing. When the logout request throws, the
    response is not ok, its body cannot be read, or the body reports
    [success:false], the result is [{success:false, error}] and the instance
    is exactly what it was (same state, no listener called). When the
    response is ok and reports success, [user], [session], [profile] and
    [roles] are cleared, the other fields are kept, and every listener
    receives the new state. A successful result comes from that case only. *)
Theorem signOut_atomic (r : LogoutResponse) (svc : Service) :
  ((r = FetchThrows
    ∨ (∃ body, r = FetchResponse false body)
    ∨ (∃ ok data_error, r = FetchResponse ok (BodyObject false data_error))
    ∨ (∃ ok, r = FetchResponse ok BodyThrows)
    ∨ (∃ ok, r = FetchResponse ok BodyNull)) →
   (signOut r svc).1 = svc
   ∧ success (signOut r svc).2 = false
   ∧ is_Some (error (signOut r svc).2))
  ∧ (∀ data_error, r = FetchResponse true (BodyObject true data_error) →
       signOut r svc = (updateState clearSession svc, mkResult true None)
       ∧ cleared (authState (signOut r svc).1)
       ∧ loading (authState (signOut r svc).1) = loading (authState svc)
       ∧ mounted (authState (signOut r svc).1) = mounted (authState svc)
       ∧ profileNotFound (authState (signOut r svc).1)
         = profileNotFound (authState svc)
       ∧ ∀ l, l ∈ listeners svc →
              lastDelivered l (signOut r svc).1 = Some (authState (signOut r svc).1))
  ∧ (success (signOut r svc).2 = true →
     ∃ data_error, r = FetchResponse true (BodyObject true data_error)).
Proof.
  split; [|split].
  - intros [-> | [[body ->] | [(ok & e & ->) | [[ok ->] | [ok ->]]]]]; simpl;
      try by eauto.
    + destruct body; simpl; eauto.
    + rewrite orb_true_r. eauto.
  - intros data_error ->. simpl. repeat split.
    intros l Hl. by apply updateState_lastDelivered.
  - destruct r as [|[] [| |[] e]]; simpl; try done. eauto.
Qed.

Lemma signOut_atomic_witness :
  (signOut (FetchResponse false (BodyObject true None)) (subscribe 0 fresh).1).1
  = (subscribe 0 fresh).1.
Proof.
  apply (signOut_atomic (FetchResponse false (BodyObject true None))
                        (subscribe 0 fresh).1).
  right. left. eexists. reflexivity.
Defined.

End AuthClaims.

(** ** Further properties of the auth-state cache *)

Section AuthCoverage.

Lemma ensureClient_frame (window : bool) (svc : Service) :
  authState (ensureClient window svc).2 = authState svc
  ∧ listeners (ensureClient window svc).2 = listeners svc
  ∧ delivered (ensureClient window svc).2 = delivered svc.
Proof. unfold ensureClient. by case_match. Qed.

Lemma ensureClient_client (window : bool) (svc : Service) :
  (ensureClient window svc).1 = supabaseClient (ensureClient window svc).2
  ∧ (ensureClient window svc).1 = window || supabaseClient svc.
Proof.
  unfold ensureClient. destruct (supabaseClient svc) eqn:E, window; simpl; auto.
Qed.

Lemma ensureClient_pair (window : bool) (svc : Service) :
  ensureClient window svc = ((ensureClient window svc).1, (ensureClient window svc).2).
Proof. by destruct (ensureClient window svc). Qed.

Lemma evolves_trans (a b c : Service) : evolves a b → evolves b c → evolves a c.
Proof. intros Hab Hbc. induction Hbc; eauto using evolves. Qed.

Lemma evolves_update1 (svc : Service) (u : Updates) : evolves svc (updateState u svc).
Proof. apply evolves_update, evolves_refl. Qed.

Lemma evolves_client1 (svc : Service) (window : bool) :
  evolves svc (ensureClient window svc).2.
Proof. apply evolves_client, evolves_refl. Qed.

Lemma evolves_listeners (svc svc' : Service) :
  evolves svc svc' → listeners svc' = listeners svc.
Proof.
  induction 1 as [|svc svc' u _ IH|svc svc' w _ IH]; [done|done|].
  by rewrite (proj1 (proj2 (ensureClient_frame w svc'))).
Qed.

Lemma evolves_delivered (svc svc' : Service) :
  evolves svc svc' → delivered svc `prefix_of` delivered svc'.
Proof.
  induction 1 as [|svc svc' u _ IH|svc svc' w _ IH]; [done| |].
  - rewrite updateState_delivered. by apply prefix_app_r.
  - by rewrite (proj2 (proj2 (ensureClient_frame w svc'))).
Qed.

Lemma refreshFallback_evolves (env : InitEnv) (svc : Service) :
  evolves svc (refreshFallback env svc).
Proof. unfold refreshFallback. repeat case_match; apply evolves_update1. Qed.

Lemma initializeAuth_evolves (env : InitEnv) (svc : Service) :
  evolves svc (initializeAuth env svc).1.
Proof.
  unfold initializeAuth. rewrite ensureClient_pair.
  pose proof (evolves_client1 svc (env_window env)) as Hc.
  repeat case_match; simplify_eq/=;
    eauto using evolves, evolves_trans, refreshFallback_evolves.
Qed.

Lemma signIn_evolves (window : bool) (r : SignInResult) (svc : Service) :
  evolves svc (signIn window r svc).1.
Proof.
  unfold signIn. rewrite ensureClient_pair.
  pose proof (evolves_client1 svc window) as Hc.
  repeat case_match; simplify_eq/=; eauto using evolves.
Qed.

Lemma signUp_evolves (window : bool) (r : SignInResult) (svc : Service) :
  evolves svc (signUp window r svc).1.
Proof.
  unfold signUp. rewrite ensureClient_pair.
  pose proof (evolves_client1 svc window) as Hc.
  repeat case_match; simplify_eq/=; eauto using evolves.
Qed.

Lemma providerCall_evolves (internal : string) (readsWindow window : bool)
    (r : CallResult) (svc : Service) :
  evolves svc (providerCall internal readsWindow window r svc).1.
Proof.
  unfold providerCall. rewrite ensureClient_pair.
  pose proof (evolves_client1 svc window) as Hc.
  repeat case_match; simplify_eq/=; eauto using evolves.
Qed.

Lemma signOut_evolves (r : LogoutResponse) (svc : Service) :
  evolves svc (signOut r svc).1.
Proof. unfold signOut. repeat case_match; simpl; eauto using evolves. Qed.

Lemma refreshSession_evolves (window : bool) (r : RefreshResult) (svc : Service) :
  evolves svc (refreshSession window r svc).
Proof.
  unfold refreshSession. rewrite ensureClient_pair.
  pose proof (evolves_client1 svc window) as Hc.
  repeat case_match; simplify_eq/=; eauto using evolves.
Qed.

Lemma forceRefreshRole_evolves (window : bool) (qp : QueryResult (option Profile))
    (qr : QueryResult (list string)) (svc : Service) :
  evolves svc (forceRefreshRole window qp qr svc).
Proof.
  unfold forceRefreshRole. rewrite ensureClient_pair.
  pose proof (evolves_client1 svc window) as Hc.
  case_match; eauto using evolves.
Qed.

Lemma profileLoaded_evolves (qp : QueryResult (option Profile))
    (qr : QueryResult (list string)) (svc : Service) :
  evolves svc (profileLoaded qp qr svc).
Proof. apply evolves_update1. Qed.

(** Every call other than the two that manage the listener set evolves the
    instance. *)
Lemma exec_evolves (op : Op) (svc : Service) :
  (∀ l, op ≠ OpSubscribe l) → (∀ l, op ≠ OpUnsubscribe l) →
  evolves svc (exec svc op).
Proof.
  intros Hs Hu. destruct op; simpl;
    eauto using initializeAuth_evolves, profileLoaded_evolves, signIn_evolves,
      signUp_evolves, signOut_evolves, providerCall_evolves,
      refreshSession_evolves, forceRefreshRole_evolves.
  - by destruct (Hs listener).
  - by destruct (Hu listener).
Qed.


Lemma upToDate_evolves (svc svc' : Service) :
  evolves svc svc' → upToDate svc → upToDate svc'.
Proof.
  induction 1 as [|svc svc' u _ IH|svc svc' w _ IH]; intros Hinv; [done| |].
  - destruct (IH Hinv) as [Hnd _]. split; [done|].
    intros l Hl. by apply updateState_lastDelivered.
  - destruct (IH Hinv) as [Hnd Hlast].
    destruct (ensureClient_frame w svc') as (Ha & Hl & Hd).
    unfold upToDate, lastDelivered in *. by rewrite Ha, Hl, Hd.
Qed.

Lemma set_add_NoDup (l : Listener) (ls : list Listener) :
  NoDup ls → NoDup (set_add l ls).
Proof.
  intros Hnd. unfold set_add. case_decide; [done|].
  apply NoDup_app. repeat split; [done| |apply NoDup_singleton].
  intros x Hx ->%list_elem_of_singleton. done.
Qed.

Lemma elem_of_set_add (l l' : Listener) (ls : list Listener) :
  l' ∈ set_add l ls ↔ l' = l ∨ l' ∈ ls.
Proof.
  unfold set_add. case_decide.
  - split; [auto|]. by intros [-> | ?].
  - rewrite elem_of_app, list_elem_of_singleton. tauto.
Qed.

Lemma lastDelivered_snoc (l l' : Listener) (st : AuthState) (svc svc' : Service) :
  delivered svc' = delivered svc ++ [(l, st)] →
  lastDelivered l' svc' = if decide (l' = l) then Some st else lastDelivered l' svc.
Proof.
  intros Hd. unfold lastDelivered. rewrite Hd, filter_app.
  case_decide as E.
  - subst. rewrite filter_cons_True, filter_nil by done.
    by rewrite last_snoc.
  - rewrite filter_cons_False, filter_nil by (simpl; congruence).
    by rewrite app_nil_r.
Qed.

Lemma upToDate_subscribe (l : Listener) (svc : Service) :
  upToDate svc → upToDate (subscribe l svc).1.
Proof.
  intros [Hnd Hlast]. split; simpl; [by apply set_add_NoDup|].
  intros l' Hl'.
  rewrite (lastDelivered_snoc l l' (authState svc) svc) by done.
  case_decide; [done|].
  apply elem_of_set_add in Hl' as [? | ?]; [done|]. by apply Hlast.
Qed.

Lemma upToDate_unsubscribe (l : Listener) (svc : Service) :
  upToDate svc → upToDate ((subscribe l svc).2 svc).
Proof.
  intros [Hnd Hlast]. split; simpl.
  - by apply NoDup_filter.
  - intros l' [_ Hl']%list_elem_of_filter. by apply Hlast.
Qed.

Lemma upToDate_exec (op : Op) (svc : Service) :
  upToDate svc → upToDate (exec svc op).
Proof.
  intros Hinv. destruct op as [l | l | | | | | | | | | | |];
    try (eapply upToDate_evolves; [by apply exec_evolves | done]).
  - by apply upToDate_subscribe.
  - by apply upToDate_unsubscribe.
Qed.

(** X11. Whatever calls are made on a new instance, in whatever order and
    with whatever answers from outside, no listener is registered twice and
    every registered listener has last been called with the current state:
    subscribers never hold a stale or partial state. *)
Theorem subscribers_always_up_to_date (ops : list Op) :
  NoDup (listeners (run ops fresh))
  ∧ ∀ l, l ∈ listeners (run ops fresh) →
         lastDelivered l (run ops fresh) = Some (authState (run ops fresh)).
Proof.
  unfold run. change (upToDate (foldl exec fresh ops)).
  assert (upToDate fresh) as Hfresh.
  { split; [apply NoDup_nil_2 | by intros l Hl%elem_of_nil]. }
  revert Hfresh. generalize fresh.
  induction ops as [|op ops IH]; intros svc Hinv; simpl; [done|].
  apply IH. by apply upToDate_exec.
Qed.

(** X12. Only [subscribe] and the unsubscribe function change the listener
    set; every other method leaves it as it is, and only ever adds to the
    calls made to listeners. *)
Theorem listeners_change_only_by_subscription (op : Op) (svc : Service) :
  (∀ l, op ≠ OpSubscribe l) →
  (∀ l, op ≠ OpUnsubscribe l) →
  listeners (exec svc op) = listeners svc
  ∧ delivered svc `prefix_of` delivered (exec svc op).
Proof.
  intros Hs Hu. pose proof (exec_evolves op svc Hs Hu) as He.
  split; [by apply evolves_listeners | by apply evolves_delivered].
Qed.

Lemma listeners_change_only_by_subscription_witness :
  listeners (exec (subscribe 0 fresh).1
                  (OpSignOut (FetchResponse true (BodyObject true None))))
  = listeners (subscribe 0 fresh).1.
Proof.
  apply (listeners_change_only_by_subscription
           (OpSignOut (FetchResponse true (BodyObject true None)))
           (subscribe 0 fresh).1).
  - intros l. discriminate.
  - intros l. discriminate.
Defined.

(** X13. Subscribing the same callback twice registers it once but calls it
    at each subscription, and one call of the unsubscribe function removes
    it altogether. *)
Theorem subscribe_twice (l : Listener) (svc : Service) :
  let svc1 := (subscribe l svc).1 in
  let svc2 := (subscribe l svc1).1 in
  listeners svc2 = listeners svc1
  ∧ delivered svc2 = delivered svc ++ [(l, authState svc); (l, authState svc)]
  ∧ l ∉ listeners ((subscribe l svc).2 svc2).
Proof.
  simpl. repeat split.
  - unfold set_add at 1. rewrite decide_True; [done|].
    apply elem_of_set_add. by left.
  - by rewrite <- app_assoc.
  - unfold set_delete. rewrite list_elem_of_filter. tauto.
Qed.


(** X14. [signIn] and [signUp] succeed exactly when a client is available
    and the provider returns a user without an error. On success [user] and
    [session] are set as returned (the session may be [null]) and all other
    fields, [profile] and [roles] included, stay; on failure the state is
    unchanged, no listener is called, and an error message is returned. *)
Theorem signIn_signUp_effect
    (f : bool → SignInResult → Service → Service * Result)
    (window : bool) (r : SignInResult) (svc : Service) :
  f = signIn ∨ f = signUp →
  (success (f window r svc).2 = true
   ↔ window || supabaseClient svc = true ∧ ∃ u s, r = SignInData (Some u) s None)
  ∧ (∀ u s, window || supabaseClient svc = true →
            r = SignInData (Some u) s None →
            authState (f window r svc).1
            = {| user := Some u; session := s;
                 loading := loading (authState svc);
                 mounted := mounted (authState svc);
                 profile := profile (authState svc);
                 roles := roles (authState svc);
                 profileNotFound := profileNotFound (authState svc) |})
  ∧ (success (f window r svc).2 = false →
     authState (f window r svc).1 = authState svc
     ∧ delivered (f window r svc).1 = delivered svc
     ∧ is_Some (error (f window r svc).2)).
Proof.
  intros Hf.
  assert (window || supabaseClient svc = false →
          f window r svc = (svc, mkResult false (Some "No Supabase client available")))
    as Hnone.
  { destruct Hf as [-> | ->]; unfold signIn, signUp, ensureClient;
      by destruct (supabaseClient svc), window. }
  assert (window || supabaseClient svc = true →
          authState (f window r svc).1
          = match r with
            | SignInData (Some u) s None =>
                spread (authState svc) (setSession s (Some u))
            | _ => authState svc
            end
          ∧ delivered (f window r svc).1
            = match r with
              | SignInData (Some u) s None => delivered (f window r svc).1
              | _ => delivered svc
              end
          ∧ success (f window r svc).2
            = match r with SignInData (Some u) s None => true | _ => false end
          ∧ (success (f window r svc).2 = false → is_Some (error (f window r svc).2)))
    as Hsome.
  { destruct Hf as [-> | ->]; unfold signIn, signUp, ensureClient;
      destruct (supabaseClient svc), window, r as [|[u|] s [e|]]; simpl;
      try done; intros _; repeat split; eauto. }
  destruct (window || supabaseClient svc) eqn:Hclient.
  - destruct (Hsome eq_refl) as (Hst & Hd & Hsucc & Herr). clear Hsome Hnone.
    split; [|split].
    + rewrite Hsucc. destruct r as [|[u|] s [e|]]; split; try done; eauto;
        by intros (_ & u' & s' & [=]).
    + intros u s _ ->. by rewrite Hst.
    + intros Hfalse. rewrite Hsucc in Hfalse.
      destruct r as [|[u|] s [e|]]; try done; auto.
  - rewrite (Hnone eq_refl). simpl. split; [|split].
    + split; [done | by intros [[=] _]].
    + by intros u s [=].
    + eauto.
Qed.

Lemma signIn_signUp_effect_witness :
  authState (signUp true (SignInData None None (Some "User already registered"))
                    fresh).1
  = authState fresh.
Proof.
  destruct (signIn_signUp_effect
              signUp true (SignInData None None (Some "User already registered"))
              fresh) as (_ & _ & H).
  - right. reflexivity.
  - destruct H as [H _]; [reflexivity | exact H].
Defined.


(** X15. [resetPassword], [updatePassword], [updateProfile] and
    [signInWithProvider] never touch the cached state, the listener set or
    the listeners ([updateProfile] does not refresh the cached profile); they
    report success only when the provider call returned without an error,
    and an error message otherwise. *)
Theorem provider_calls_leave_state
    (f : bool → CallResult → Service → Service * Result)
    (window : bool) (r : CallResult) (svc : Service) :
  f = resetPassword ∨ f = updatePassword ∨ f = updateProfile
  ∨ f = signInWithProvider →
  authState (f window r svc).1 = authState svc
  ∧ listeners (f window r svc).1 = listeners svc
  ∧ delivered (f window r svc).1 = delivered svc
  ∧ (success (f window r svc).2 = true →
     r = CallData None ∧ window || supabaseClient svc = true)
  ∧ (success (f window r svc).2 = false → is_Some (error (f window r svc).2)).
Proof.
  intros [-> | [-> | [-> | ->]]];
    unfold resetPassword, updatePassword, updateProfile, signInWithProvider,
      providerCall, ensureClient;
    destruct (supabaseClient svc), window, r as [|[e|]]; simpl;
    repeat split; eauto; done.
Qed.

Lemma provider_calls_leave_state_witness :
  authState (updateProfile true (CallData None) fresh).1 = authState fresh.
Proof.
  apply (provider_calls_leave_state updateProfile true (CallData None) fresh).
  right. right. left. reflexivity.
Defined.

(** X16. [refreshSession] changes the state only when a client is available
    and the provider returns a session without an error: then [session] and
    [user] are replaced and the other fields stay. In every other case the
    state is unchanged and no listener is called; in particular a failed
    refresh never clears a session that is held. *)
Theorem refreshSession_effect (window : bool) (r : RefreshResult) (svc : Service) :
  (∀ s, window || supabaseClient svc = true →
        r = RefreshData (Some s) None →
        authState (refreshSession window r svc)
        = {| user := Some (session_user s); session := Some s;
             loading := loading (authState svc);
             mounted := mounted (authState svc);
             profile := profile (authState svc);
             roles := roles (authState svc);
             profileNotFound := profileNotFound (authState svc) |})
  ∧ (window || supabaseClient svc = false ∨ (∀ s, r ≠ RefreshData (Some s) None) →
     authState (refreshSession window r svc) = authState svc
     ∧ delivered (refreshSession window r svc) = delivered svc)
  ∧ (is_Some (session (authState svc)) →
     is_Some (session (authState (refreshSession window r svc)))).
Proof.
  assert (authState (refreshSession window r svc)
          = (if window || supabaseClient svc
             then match r with
                  | RefreshData (Some s) None =>
                      spread (authState svc)
                             (setSession (Some s) (Some (session_user s)))
                  | _ => authState svc
                  end
             else authState svc)
          ∧ (window || supabaseClient svc = false
             ∨ (∀ s, r ≠ RefreshData (Some s) None) →
             delivered (refreshSession window r svc) = delivered svc)) as [Hst Hd].
  { unfold refreshSession, ensureClient.
    destruct (supabaseClient svc), window, r as [|[s|] [e|]]; simpl;
      (split; [done|]); try done; intros [[=] | Hne]; by destruct (Hne s). }
  rewrite Hst. split; [|split].
  - by intros s -> ->.
  - intros H. split; [|by apply Hd].
    destruct H as [-> | Hne]; [done|].
    destruct (window || supabaseClient svc); [|done].
    destruct r as [|[s|] [e|]]; try done. by destruct (Hne s).
  - intros Hsome. destruct (window || supabaseClient svc); [|done].
    by destruct r as [|[s|] [e|]].
Qed.

(** X17. [forceRefreshRole] does nothing without a user. With one, it
    replaces [profile] and [roles] by what the two queries yield, a failed
    query or a missing client counting as no profile and no roles, and leaves
    the other fields, [profileNotFound] included, as they were. *)
Theorem forceRefreshRole_effect (window : bool) (qp : QueryResult (option Profile))
    (qr : QueryResult (list string)) (svc : Service) :
  (user (authState svc) = None → forceRefreshRole window qp qr svc = svc)
  ∧ (is_Some (user (authState svc)) →
     authState (forceRefreshRole window qp qr svc)
     = {| user := user (authState svc);
          session := session (authState svc);
          loading := loading (authState svc);
          mounted := mounted (authState svc);
          profile :=
            if window || supabaseClient svc
            then match qp with QueryData p None => p | _ => None end
            else None;
          roles :=
            if window || supabaseClient svc
            then match qr with QueryData rs None => rs | _ => [] end
            else [];
          profileNotFound := profileNotFound (authState svc) |}).
Proof.
  unfold forceRefreshRole, ensureClient, loadUserProfile, loadUserRoles.
  destruct svc as [client st ls trace]. simpl. split.
  - by intros ->.
  - intros [u Hu]. rewrite Hu.
    destruct client, window, qp as [|p [e|]], qr as [|rs [e'|]]; simpl;
      unfold spread; simpl; by rewrite ?Hu.
Qed.

(** X18. After a successful [signOut] the role and permission predicates
    are all false. [hasAnyRole] holds exactly when [hasRole] holds for one of
    the names given. *)
Theorem no_roles_after_signOut (data_error : option string) (svc : Service)
    (role permission : string) (rs : list string) :
  let svc' := (signOut (FetchResponse true (BodyObject true data_error)) svc).1 in
  hasRole role svc' = false
  ∧ hasAnyRole rs svc' = false
  ∧ hasPermission permission svc' = false
  ∧ (∀ svc0 : Service,
       hasAnyRole rs svc0 = true ↔ ∃ r, r ∈ rs ∧ hasRole r svc0 = true).
Proof.
  simpl. unfold hasRole, hasAnyRole, hasPermission. simpl.
  repeat split; try done.
  - by induction rs.
  - rewrite existsb_exists. intros (r & Hin%list_elem_of_In & Hr). eauto.
  - intros (r & Hin%list_elem_of_In & Hr). apply existsb_exists. eauto.
Qed.

(** X19. [initializeAuth] always ends with [loading:false], and with
    [mounted:true] on every path but one: when [getSession] throws, [mounted]
    keeps its value. *)
Theorem initializeAuth_ends_loading (env : InitEnv) (svc : Service) :
  loading (authState (initializeAuth env svc).1) = false
  ∧ (mounted (authState (initializeAuth env svc).1) = true
     ∨ (env_getSession env = GetSessionThrows
        ∧ mounted (authState (initializeAuth env svc).1) = mounted (authState svc))).
Proof.
  unfold initializeAuth, ensureClient, refreshFallback.
  destruct (supabaseClient svc), (env_window env); simpl;
    destruct (env_getSession env) as [|[s|]]; simpl; auto;
    repeat case_match; simpl; auto.
Qed.

(** X20. When [getSession] yields a session, [initializeAuth] stores it and
    its user with [loading:false] and [mounted:true], keeps [profile] and
    [roles] for the time being and starts the background load for the user
    id; an empty user id counts as none, so then [profile] and [roles] are
    reset and no load is started. *)
Theorem initializeAuth_with_session (env : InitEnv) (svc : Service) (s : Session) :
  env_window env || supabaseClient svc = true →
  env_getSession env = GetSessionData (Some s) →
  let truthy := Js.truthy (user_id (session_user s)) in
  authState (initializeAuth env svc).1
  = {| user := Some (session_user s); session := Some s;
       loading := false; mounted := true;
       profile := if truthy then profile (authState svc) else None;
       roles := if truthy then roles (authState svc) else [];
       profileNotFound := profileNotFound (authState svc) |}
  ∧ (initializeAuth env svc).2
    = (if truthy then Some (user_id (session_user s)) else None)
  ∧ supabaseClient (initializeAuth env svc).1 = true.
Proof.
  intros Hclient Hget. unfold initializeAuth, ensureClient. rewrite Hget.
  destruct svc as [client st ls trace]. simpl in *.
  destruct client, (env_window env); try done; simpl;
    by destruct (Js.truthy (user_id (session_user s))).
Qed.

Lemma initializeAuth_with_session_witness :
  (initializeAuth
     (mkInitEnv true (GetSessionData
         (Some (mkSession (mkUser "u1" "u1@cms.example") "a" "r" 3600 "bearer")))
         RefreshThrows CheckThrows)
     fresh).2
  = Some "u1".
Proof.
  apply (initializeAuth_with_session
           (mkInitEnv true (GetSessionData
               (Some (mkSession (mkUser "u1" "u1@cms.example") "a" "r" 3600 "bearer")))
               RefreshThrows CheckThrows)
           fresh (mkSession (mkUser "u1" "u1@cms.example") "a" "r" 3600 "bearer")).
  - reflexivity.
  - reflexivity.
Defined.

(** X21. When [getSession] yields no session, [initializeAuth] ends with
    the state cleared exactly when neither the refresh nor the check-session
    fallback finds one. When one of them does, its session and user are
    stored, yet [profile] and [roles] are reset and no profile load is
    started: the load is tied to the session [getSession] returned. *)
Theorem initializeAuth_refresh_path (env : InitEnv) (svc : Service) :
  env_window env || supabaseClient svc = true →
  env_getSession env = GetSessionData None →
  let st := authState (initializeAuth env svc).1 in
  (cleared st ↔ refreshFindsSession env = false)
  ∧ (refreshFindsSession env = true →
     ∃ s, session st = Some s ∧ user st = Some (session_user s))
  ∧ profile st = None
  ∧ roles st = []
  ∧ (initializeAuth env svc).2 = None.
Proof.
  intros Hclient Hget. unfold initializeAuth, ensureClient. rewrite Hget.
  assert (∀ svc0 : Service,
            let st := authState (updateState clearProfile (refreshFallback env svc0)) in
            (cleared st ↔ refreshFindsSession env = false)
            ∧ (refreshFindsSession env = true →
               ∃ s, session st = Some s ∧ user st = Some (session_user s))
            ∧ profile st = None ∧ roles st = []) as Hcore.
  { intros svc0. unfold refreshFallback, refreshFindsSession, cleared.
    destruct (env_refreshSession env) as [|[rs|] [e|]]; simpl;
      try (destruct (env_checkSession env) as [|[ok has [u|]]]; simpl;
           try destruct ok; try destruct has; simpl);
      repeat split; try done; eauto; by intros (? & ? & _). }
  destruct svc as [client st0 ls trace]. simpl in *.
  destruct client, (env_window env); try done; simpl;
    match goal with
    | |- context [refreshFallback env ?x] => destruct (Hcore x) as (H1 & H2 & _)
    end;
    (split; [exact H1|]); (split; [exact H2|]); done.
Qed.

Lemma initializeAuth_refresh_path_witness :
  (initializeAuth
     (mkInitEnv true (GetSessionData None)
                (RefreshData
                    (Some (mkSession (mkUser "u1" "u1@cms.example") "a" "r" 3600 "bearer"))
                    None) CheckThrows)
     fresh).2
  = None.
Proof.
  apply (initializeAuth_refresh_path
           (mkInitEnv true (GetSessionData None)
                      (RefreshData
                          (Some (mkSession (mkUser "u1" "u1@cms.example") "a" "r" 3600 "bearer"))
                          None) CheckThrows)
           fresh).
  - reflexivity.
  - reflexivity.
Defined.


(** X22. After [initializeAuth] found a session and its background load
    settles, the state holds the session, its user, and the profile and
    roles the two queries gave, a failed query counting as none;
    [profileNotFound] is set exactly when no profile came back. *)
Theorem profile_load_after_init (env : InitEnv) (svc : Service) (s : Session)
    (qp : QueryResult (option Profile)) (qr : QueryResult (list string)) :
  env_window env || supabaseClient svc = true →
  env_getSession env = GetSessionData (Some s) →
  Js.truthy (user_id (session_user s)) = true →
  let userProfile := match qp with QueryData p None => p | _ => None end in
  let userRoles := match qr with QueryData rs None => rs | _ => [] end in
  (initializeAuth env svc).2 = Some (user_id (session_user s))
  ∧ authState (profileLoaded qp qr (initializeAuth env svc).1)
    = {| user := Some (session_user s); session := Some s;
         loading := false; mounted := true;
         profile := userProfile; roles := userRoles;
         profileNotFound := negb (bool_decide (is_Some userProfile)) |}.
Proof.
  intros Hclient Hget Htruthy.
  unfold initializeAuth, ensureClient, profileLoaded, loadUserProfile,
    loadUserRoles.
  rewrite Hget. destruct svc as [client st ls trace]. simpl in *.
  destruct client, (env_window env); try done; simpl; rewrite Htruthy; simpl;
    by destruct qp as [|p [e|]], qr as [|rs [e'|]].
Qed.

Lemma profile_load_after_init_witness :
  (initializeAuth
     (mkInitEnv true (GetSessionData
         (Some (mkSession (mkUser "u1" "u1@cms.example") "a" "r" 3600 "bearer")))
         RefreshThrows CheckThrows)
     fresh).2
  = Some "u1".
Proof.
  apply (profile_load_after_init
           (mkInitEnv true (GetSessionData
               (Some (mkSession (mkUser "u1" "u1@cms.example") "a" "r" 3600 "bearer")))
               RefreshThrows CheckThrows)
           fresh
               (mkSession (mkUser "u1" "u1@cms.example") "a" "r" 3600 "bearer")
               QueryThrows (QueryData ["admin"] None)).
  - reflexivity.
  - reflexivity.
  - reflexivity.
Defined.

(** X23. Without a client (no [window], none created earlier)
    [initializeAuth] only sets [loading:false] and [mounted:true], whatever
    the provider would answer; [signIn], [signUp] and [updatePassword] return
    the error "No Supabase client available" and [refreshSession] returns,
    all leaving the instance as it is. *)
Theorem without_client (env : InitEnv) (svc : Service) :
  env_window env = false →
  supabaseClient svc = false →
  authState (initializeAuth env svc).1
  = {| user := user (authState svc); session := session (authState svc);
       loading := false; mounted := true;
       profile := profile (authState svc); roles := roles (authState svc);
       profileNotFound := profileNotFound (authState svc) |}
  ∧ (initializeAuth env svc).2 = None
  ∧ (∀ r, signIn false r svc
          = (svc, mkResult false (Some "No Supabase client available")))
  ∧ (∀ r, signUp false r svc
          = (svc, mkResult false (Some "No Supabase client available")))
  ∧ (∀ r, updatePassword false r svc
          = (svc, mkResult false (Some "No Supabase client available")))
  ∧ (∀ r, refreshSession false r svc = svc).
Proof.
  intros Hw Hc.
  unfold initializeAuth, signIn, signUp, updatePassword, providerCall,
    refreshSession, ensureClient.
  rewrite Hw, Hc. simpl. by repeat split.
Qed.

Lemma without_client_witness :
  (initializeAuth
     (mkInitEnv false (GetSessionData
         (Some (mkSession (mkUser "u1" "u1@cms.example") "a" "r" 3600 "bearer")))
         RefreshThrows CheckThrows)
     fresh).2
  = None.
Proof.
  apply (without_client
           (mkInitEnv false (GetSessionData
               (Some (mkSession (mkUser "u1" "u1@cms.example") "a" "r" 3600 "bearer")))
               RefreshThrows CheckThrows)
           fresh).
  - reflexivity.
  - reflexivity.
Defined.

End AuthCoverage.

(** ** The session routes *)

Import Routes.

Section RoutesCoverage.

Lemma checkSession_consistent_lemma (env : CheckEnv) :
  cr_success (checkSessionGET env) = cr_hasSession (checkSessionGET env)
  ∧ (cr_success (checkSessionGET env) = true
     ↔ is_Some (cr_user (checkSessionGET env)))
  ∧ (cr_success (checkSessionGET env) = false
     ↔ is_Some (cr_error (checkSessionGET env))).
Proof.
  unfold checkSessionGET.
  repeat case_match; simpl; repeat split; eauto; try done;
    by intros [? [=]].
Qed.

(** X24. Every answer of check-session is consistent: [success] equals
    [hasSession], a [user] is present exactly when they are true, and an
    [error] exactly when they are false. *)
Theorem checkSession_consistent (env : CheckEnv) :
  cr_success (checkSessionGET env) = cr_hasSession (checkSessionGET env)
  ∧ (cr_success (checkSessionGET env) = true
     ↔ is_Some (cr_user (checkSessionGET env)))
  ∧ (cr_success (checkSessionGET env) = false
     ↔ is_Some (cr_error (checkSessionGET env))).
Proof. apply checkSession_consistent_lemma. Qed.

(** X25. check-session reports a user exactly when the client could be
    created and either [getSession] returned a session without an error (the
    user is the session's) or it returned nothing without an error and
    [getUser] returned that user without an error; an error or a throw of
    [getSession] ends the request without [getUser] being consulted. *)
Theorem checkSession_found_iff (env : CheckEnv) (u : User) :
  cr_user (checkSessionGET env) = Some u
  ↔ ce_createClient env = true
    ∧ ((∃ s, ce_getSession env = AnswerData (Some s) None ∧ session_user s = u)
       ∨ (ce_getSession env = AnswerData None None
          ∧ ce_getUser env = AnswerData (Some u) None)).
Proof.
  assert (∀ v : User, mkUser (user_id v) (user_email v) = v) as Heta
    by (by intros []).
  unfold checkSessionGET, checkFound, checkFailure.
  destruct (ce_createClient env); simpl.
  2: { split; [done | by intros [[=] _]]. }
  destruct (ce_getSession env) as [m|[s|] [e|]]; simpl.
  - split; [done|]. by intros (_ & [(s & [=] & _) | ([=] & _)]).
  - split; [done|]. by intros (_ & [(s' & [=] & _) | ([=] & _)]).
  - rewrite Heta. split.
    + intros [= <-]. eauto.
    + by intros (_ & [(s' & [= <-] & <-) | ([=] & _)]).
  - split; [done|]. by intros (_ & [(s' & [=] & _) | ([=] & _)]).
  - destruct (ce_getUser env) as [m|[v|] [e|]]; simpl; rewrite ?Heta.
    + split; [done|]. by intros (_ & [(s' & [=] & _) | (_ & [=])]).
    + split; [done|]. by intros (_ & [(s' & [=] & _) | (_ & [=])]).
    + split.
      * intros [= <-]. eauto.
      * by intros (_ & [(s' & [=] & _) | (_ & [= <-])]).
    + split; [done|]. by intros (_ & [(s' & [=] & _) | (_ & [=])]).
    + split; [done|]. by intros (_ & [(s' & [=] & _) | (_ & [=])]).
Qed.



(** X27. Every answer of test-session, failures included, returns the
    complete cookie jar of the request. It reports [authenticated] exactly
    when the client was created, [getUser] returned a user without an error
    and the profile query did not throw; a profile query that answers with
    an error does not change that and is passed on as [profileError]. An
    [error] is present exactly when [authenticated] is false. *)
Theorem testSession_always_echoes_cookies (cookies : gmap string string)
    (env : TestEnv) :
  tr_cookies (testSessionGET cookies env) = cookies
  ∧ (tr_authenticated (testSessionGET cookies env) = true
     ↔ te_createClient env = None
       ∧ ∃ u p e, te_getUser env = AnswerData (Some u) None
                  ∧ te_profile env = AnswerData p e)
  ∧ (tr_authenticated (testSessionGET cookies env) = false
     ↔ is_Some (tr_error (testSessionGET cookies env)))
  ∧ (∀ u p e, te_createClient env = None →
              te_getUser env = AnswerData (Some u) None →
              te_profile env = AnswerData p e →
              tr_profile (testSessionGET cookies env) = p
              ∧ tr_profileError (testSessionGET cookies env) = e
              ∧ tr_user (testSessionGET cookies env) = Some u).
Proof.
  assert (∀ v : User, mkUser (user_id v) (user_email v) = v) as Heta
    by (by intros []).
  unfold testSessionGET, testFailure.
  destruct (te_createClient env) as [thrown|]; simpl.
  { split; [done|]. split; [split; [done | by intros [[=] _]]|].
    split; [split; eauto|]. by intros u p e [=]. }
  destruct (te_getUser env) as [m|[u|] [e|]]; simpl.
  1,2,4,5: split; [done|];
    (split; [split; [done | by intros (_ & u' & p & e' & [=] & _)]|]);
    (split; [split; eauto|]); by intros u' p e' _ [=].
  destruct (te_profile env) as [m|p e]; simpl.
  - split; [done|].
    split; [split; [done | by intros (_ & u' & p & e' & _ & [=])]|].
    split; [split; eauto|]. by intros u' p e' _ _ [=].
  - rewrite Heta. split; [done|].
    split; [split; [eauto 10 | done]|].
    split; [split; [done | by intros [? [=]]]|].
    by intros u' p' e' _ [= <-] [= <- <-].
Qed.

End RoutesCoverage.
